(** * Personal-Finance-AI-Chatbot: the scripted advisor chat and quiz

    A shallow embedding of the decision logic of the React front end:

    - [frontend/src/components/ChatInterface.jsx]: the keyword-matched
      advisor replies ([generateAIResponse]), the quiz handlers ([startQuiz],
      [handleQuizAnswer], [showQuizResults]), the message log ([addMessage],
      [handleSendMessage], [resetChat]);
    - the analytics component ([handleAnalysis], [generateMockResults]).

    Modelling conventions.

    - A JavaScript string is a [string]: the sequence of its UTF-8 bytes.
      The keywords searched for are ASCII, and an ASCII word occurs in the
      UTF-8 bytes of a text exactly when it occurs in its UTF-16 code units.
    - Integer-valued counters and indices ([quizScore], [currentQuestion],
      option indices, millisecond clock readings) are [Z].
    - The percentage of [showQuizResults] is computed in IEEE binary64, as
      JavaScript does: a primitive [float].
    - Built-ins of the JavaScript platform whose full definition is outside
      this repository ([String.prototype.toLowerCase], [String.prototype.trim],
      the digits [Number::toString] prints for a non-integral number) are the
      fields of the class [JSPlatform]; the general statements hold for
      every platform, and the concrete runs use an ASCII one.
    - A React state variable is a constant of one render. A handler is a
      closure of the render that created it: it reads the values of that
      render (the snapshot [r]) and queues updates, which apply to the latest
      state (the world [w]). A callback handed to [setTimeout] keeps the
      variables of the render it was created in.
    - In the source the name [showQuizResults] is declared twice in the
      component body, once for the boolean state flag and once for the
      function that emits the summary. The flag is [showQuizResultsFlag] here
      and the function keeps the name. *)

From Stdlib Require Import ZArith List String Ascii Bool Lia Floats DecimalString Sorted.
From stdpp Require Import base list strings.

Open Scope string_scope.
Open Scope list_scope.
Open Scope Z_scope.

(** ** Completions: a call returns normally or throws *)

Inductive Completion (A : Type) : Type :=
| Normal (a : A)
| Throw (error : string).
Arguments Normal {A} a.
Arguments Throw {A} error.

#[global] Instance Completion_ret : MRet Completion := fun A a => Normal a.
#[global] Instance Completion_bind : MBind Completion := fun A B f c =>
  match c with
  | Normal a => f a
  | Throw e => Throw e
  end.

(** ** Platform built-ins *)

Class JSPlatform : Type := {
  (** [String.prototype.toLowerCase] *)
  toLowerCase : string -> string;
  (** [String.prototype.trim] *)
  trim : string -> string;
  (** [Number::toString] on a finite number that is not an integer below
      10^21: the shortest decimal that reads back as the same double. *)
  shortestDecimal : float -> string
}.

(** An ASCII-only platform, to run the model on concrete ASCII inputs. *)

Definition asciiLowerChar (c : ascii) : ascii :=
  let n := N_of_ascii c in
  if ((65 <=? n) && (n <=? 90))%N then ascii_of_N (n + 32) else c.

Fixpoint asciiLower (s : string) : string :=
  match s with
  | EmptyString => EmptyString
  | String c s' => String (asciiLowerChar c) (asciiLower s')
  end.

Definition isAsciiSpace (c : ascii) : bool :=
  let n := N_of_ascii c in
  ((n =? 32) || ((9 <=? n) && (n <=? 13)))%N.

Fixpoint trimStart (s : string) : string :=
  match s with
  | EmptyString => EmptyString
  | String c s' => if isAsciiSpace c then trimStart s' else s
  end.

Fixpoint trimEnd (s : string) : string :=
  match s with
  | EmptyString => EmptyString
  | String c s' =>
      match trimEnd s' with
      | EmptyString => if isAsciiSpace c then EmptyString else String c EmptyString
      | t => String c t
      end
  end.

Definition asciiPlatform : JSPlatform := {|
  toLowerCase := asciiLower;
  trim := fun s => trimEnd (trimStart s);
  shortestDecimal := fun _ => "?"
|}.

(** ** Strings *)

Definition nl : string := String (ascii_of_nat 10) EmptyString.

(** A template literal written over several lines: the pieces joined by
    the newline character. *)
Definition lines (pieces : list string) : string := String.concat nl pieces.

(** [s.startsWith(k)] *)
Fixpoint startsWith (s k : string) {struct k} : bool :=
  match k, s with
  | EmptyString, _ => true
  | String a k', String b s' => Ascii.eqb a b && startsWith s' k'
  | String _ _, EmptyString => false
  end.

(** [s.includes(k)]: [k] occurs in [s] as a contiguous substring. *)
Fixpoint includes (s k : string) : bool :=
  startsWith s k ||
  match s with
  | EmptyString => false
  | String _ s' => includes s' k
  end.

(** [`${n}`] for an integer-valued number. *)
Definition showZ (n : Z) : string := NilZero.string_of_int (Z.to_int n).

(** [a[i]]: [undefined] outside the array. *)
Definition nth_js {A} (l : list A) (i : Z) : option A :=
  if i <? 0 then None else l !! Z.to_nat i.

(** [`${s}`] for a string or [undefined]. *)
Definition showOptString (o : option string) : string :=
  match o with
  | Some s => s
  | None => "undefined"
  end.

(** ** Numbers *)

(** The double nearest to an integer. *)
Definition Z2float (z : Z) : float := SF2Prim (binary_normalize prec emax z 0 false).

(** The integer a finite double [m * 2^e] equals, when it is one. *)
Definition integerValue (m : positive) (e : Z) : option Z :=
  if 0 <=? e then Some (Z.pos m * 2 ^ e)
  else if (Z.pos m) mod (2 ^ (- e)) =? 0 then Some (Z.pos m / 2 ^ (- e))
  else None.

Section Platform.
Context {platform : JSPlatform}.

(** [`${x}`] for a number: [Number::toString]. *)
Definition numberToString (x : float) : string :=
  match Prim2SF x with
  | S754_nan => "NaN"
  | S754_infinity false => "Infinity"
  | S754_infinity true => "-Infinity"
  | S754_zero _ => "0"
  | S754_finite s m e =>
      match integerValue m e with
      | Some n =>
          if n <? 10 ^ 21 then (if s then "-" else "") +:+ showZ n
          else shortestDecimal x
      | None => shortestDecimal x
      end
  end.

(** ** The advisor replies (ChatInterface.jsx, generateAIResponse) *)

Definition savingsTemplate : string := lines [
  "💡 **Savings Strategy**:";
  "";
  "1. **Emergency Fund First**: Aim for 3-6 months of expenses";
  "2. **Automate Savings**: Set up automatic transfers";
  "3. **50/30/20 Rule**: 20% of income to savings";
  "4. **High-Yield Account**: Use accounts with better interest rates";
  "5. **Track Progress**: Monitor your savings goals regularly";
  "";
  "What specific savings goal are you working towards?" ].

Definition budgetTemplate : string := lines [
  "📊 **Budgeting Tips**:";
  "";
  "1. **Track Everything**: Use apps or spreadsheets";
  "2. **Categorize Expenses**: Needs vs. Wants vs. Savings";
  "3. **Set Realistic Goals**: Start small and build up";
  "4. **Review Monthly**: Adjust your budget as needed";
  "5. **Use Envelope Method**: Allocate cash for different categories";
  "";
  "Would you like me to help you create a specific budget plan?" ].

Definition investTemplate : string := lines [
  "📈 **Investment Basics**:";
  "";
  "1. **Start Early**: Time is your biggest advantage";
  "2. **Diversify**: Don't put all eggs in one basket";
  "3. **Index Funds**: Low-cost, broad market exposure";
  "4. **Risk Tolerance**: Match investments to your comfort level";
  "5. **Long-term Focus**: Avoid trying to time the market";
  "";
  "What's your investment timeline and risk tolerance?" ].

Definition debtTemplate : string := lines [
  "💳 **Debt Management**:";
  "";
  "1. **High-Interest First**: Pay off credit cards first";
  "2. **Debt Snowball**: Start with smallest debts";
  "3. **Consolidation**: Consider combining multiple debts";
  "4. **Avoid New Debt**: Stop adding to existing balances";
  "5. **Seek Help**: Consider credit counseling if needed";
  "";
  "What type of debt are you dealing with?" ].

Definition retirementTemplate : string := lines [
  "🏖️ **Retirement Planning**:";
  "";
  "1. **Start Now**: Even small amounts add up over time";
  "2. **Employer Match**: Contribute enough to get full match";
  "3. **Roth vs Traditional**: Consider tax implications";
  "4. **Increase Contributions**: Aim for 15% of income";
  "5. **Diversify**: Mix of stocks, bonds, and other assets";
  "";
  "How many years until you plan to retire?" ].

Definition defaultTemplate : string := lines [
  "Thanks for your message! I'm here to help with all things finance. You can:";
  "";
  "• Ask me specific financial questions";
  "• Take the financial quiz to test your knowledge";
  "• Get personalized advice for your situation";
  "• Create a savings plan";
  "• Get help with budgeting";
  "";
  "What would you like to focus on?" ].

(** An [async] function: the completion is what its promise settles to. *)
Definition generateAIResponse (message : string) : Completion string :=
  let lowerMessage := toLowerCase message in
  if includes lowerMessage "savings" || includes lowerMessage "save" then
    Normal savingsTemplate
  else if includes lowerMessage "budget" || includes lowerMessage "spending" then
    Normal budgetTemplate
  else if includes lowerMessage "invest" || includes lowerMessage "investment" then
    Normal investTemplate
  else if includes lowerMessage "debt" || includes lowerMessage "credit" then
    Normal debtTemplate
  else if includes lowerMessage "retirement" || includes lowerMessage "401k" then
    Normal retirementTemplate
  else
    Normal defaultTemplate.

(** The rule table of the specification: (keyword set, template) pairs in
    declaration order, first match wins. *)
Record ResponseRule : Type := {
  keywords : list string;
  template : string
}.

Definition spec_responseRules : list ResponseRule := [
  {| keywords := ["savings"; "save"]; template := savingsTemplate |};
  {| keywords := ["budget"; "spending"]; template := budgetTemplate |};
  {| keywords := ["invest"; "investment"]; template := investTemplate |};
  {| keywords := ["debt"; "credit"]; template := debtTemplate |};
  {| keywords := ["retirement"; "401k"]; template := retirementTemplate |} ].

Definition spec_ruleMatches (lowered : string) (rule : ResponseRule) : bool :=
  existsb (includes lowered) (keywords rule).

Definition spec_response (lowered : string) : string :=
  match find (spec_ruleMatches lowered) spec_responseRules with
  | Some rule => template rule
  | None => defaultTemplate
  end.

(** ** The quiz bank (ChatInterface.jsx, quizQuestions) *)

Record QuizQuestion : Type := {
  q_id : Z;
  question : string;
  options : list string;
  correct : Z;
  explanation : string
}.

Definition quizQuestions : list QuizQuestion := [
  {| q_id := 1;
     question := "What is the 50/30/20 rule for budgeting?";
     options := [
       "50% needs, 30% wants, 20% savings";
       "50% savings, 30% needs, 20% wants";
       "50% wants, 30% savings, 20% needs";
       "50% bills, 30% food, 20% entertainment" ];
     correct := 0;
     explanation := "The 50/30/20 rule suggests allocating 50% of income to needs, 30% to wants, and 20% to savings and debt repayment." |};
  {| q_id := 2;
     question := "What is compound interest?";
     options := [
       "Interest earned only on the principal amount";
       "Interest earned on both principal and accumulated interest";
       "A type of bank fee";
       "A loan payment method" ];
     correct := 1;
     explanation := "Compound interest is interest earned on both the initial principal and the accumulated interest from previous periods." |};
  {| q_id := 3;
     question := "What is an emergency fund?";
     options := [
       "Money for vacations";
       "3-6 months of living expenses saved for emergencies";
       "Investment portfolio";
       "Credit card balance" ];
     correct := 1;
     explanation := "An emergency fund should cover 3-6 months of living expenses for unexpected situations like job loss or medical emergencies." |};
  {| q_id := 4;
     question := "What is diversification in investing?";
     options := [
       "Putting all money in one stock";
       "Spreading investments across different assets";
       "Selling all investments";
       "Borrowing money to invest" ];
     correct := 1;
     explanation := "Diversification means spreading investments across different asset classes to reduce risk." |};
  {| q_id := 5;
     question := "What is a credit score?";
     options := [
       "Your bank account balance";
       "A number that represents your creditworthiness";
       "Your monthly income";
       "Your tax return amount" ];
     correct := 1;
     explanation := "A credit score is a number that lenders use to assess your creditworthiness and likelihood of repaying loans." |} ].

(** ** The component state (ChatInterface.jsx, the useState hooks) *)

Record Message : Type := {
  msg_id : Z;
  msg_type : string;
  msg_content : string;
  msg_timestamp : Z;
  msg_sender : string
}.

Record Quiz : Type := {
  currentQuestion : Z;
  questions : list QuizQuestion;
  answers : list Z
}.

Record State : Type := {
  messages : list Message;
  inputMessage : string;
  isLoading : bool;
  currentQuiz : option Quiz;
  quizScore : Z;
  showQuizResultsFlag : bool;
  activeMode : string
}.

(** The callbacks handed to [setTimeout], each with the variables of the
    render it closes over. *)
Inductive TimerCallback : Type :=
| NextQuestionCallback (capturedQuiz : Quiz)
| ShowResultsCallback (capturedScore : Z).

Record Timer : Type := {
  due : Z;
  callback : TimerCallback
}.

(** The latest state, the pending timers (oldest first) and the toasts
    shown so far. *)
Record World : Type := {
  state : State;
  timers : list Timer;
  toasts : list string
}.

Definition updState (f : State -> State) (w : World) : World :=
  {| state := f (state w); timers := timers w; toasts := toasts w |}.

Definition setMessages (f : list Message -> list Message) : World -> World :=
  updState (fun s =>
    {| messages := f (messages s); inputMessage := inputMessage s;
       isLoading := isLoading s; currentQuiz := currentQuiz s;
       quizScore := quizScore s; showQuizResultsFlag := showQuizResultsFlag s;
       activeMode := activeMode s |}).

Definition setInputMessage (v : string) : World -> World :=
  updState (fun s =>
    {| messages := messages s; inputMessage := v;
       isLoading := isLoading s; currentQuiz := currentQuiz s;
       quizScore := quizScore s; showQuizResultsFlag := showQuizResultsFlag s;
       activeMode := activeMode s |}).

Definition setIsLoading (v : bool) : World -> World :=
  updState (fun s =>
    {| messages := messages s; inputMessage := inputMessage s;
       isLoading := v; currentQuiz := currentQuiz s;
       quizScore := quizScore s; showQuizResultsFlag := showQuizResultsFlag s;
       activeMode := activeMode s |}).

Definition setCurrentQuiz (v : option Quiz) : World -> World :=
  updState (fun s =>
    {| messages := messages s; inputMessage := inputMessage s;
       isLoading := isLoading s; currentQuiz := v;
       quizScore := quizScore s; showQuizResultsFlag := showQuizResultsFlag s;
       activeMode := activeMode s |}).

Definition setQuizScore (f : Z -> Z) : World -> World :=
  updState (fun s =>
    {| messages := messages s; inputMessage := inputMessage s;
       isLoading := isLoading s; currentQuiz := currentQuiz s;
       quizScore := f (quizScore s); showQuizResultsFlag := showQuizResultsFlag s;
       activeMode := activeMode s |}).

Definition setShowQuizResults (v : bool) : World -> World :=
  updState (fun s =>
    {| messages := messages s; inputMessage := inputMessage s;
       isLoading := isLoading s; currentQuiz := currentQuiz s;
       quizScore := quizScore s; showQuizResultsFlag := v;
       activeMode := activeMode s |}).

Definition setActiveMode (v : string) : World -> World :=
  updState (fun s =>
    {| messages := messages s; inputMessage := inputMessage s;
       isLoading := isLoading s; currentQuiz := currentQuiz s;
       quizScore := quizScore s; showQuizResultsFlag := showQuizResultsFlag s;
       activeMode := v |}).

(** [setTimeout(cb, 2000)] called when the clock reads [now]. *)
Definition setTimeout (cb : TimerCallback) (now : Z) (w : World) : World :=
  {| state := state w;
     timers := (timers w ++ [ {| due := now + 2000; callback := cb |} ])%list;
     toasts := toasts w |}.

Definition toastError (text : string) (w : World) : World :=
  {| state := state w; timers := timers w; toasts := (toasts w ++ [text])%list |}.

(** The two greetings the log starts with. *)
Definition initialMessages (now : Z) : list Message := [
  {| msg_id := 1; msg_type := "bot";
     msg_content := "Hi! I'm Sam, your AI Financial Advisor! 🎯";
     msg_timestamp := now; msg_sender := "Sam" |};
  {| msg_id := 2; msg_type := "bot";
     msg_content := lines [
       "I can help you with:";
       "• 📊 Financial Quizzes & Knowledge";
       "• 💡 Personalized Financial Advice";
       "• 🎯 Savings Plans & Goals";
       "• 📈 Investment Strategies";
       "• 💰 Budget Planning";
       "";
       "What would you like to explore today?" ];
     msg_timestamp := now; msg_sender := "Sam" |} ].

Definition initialState (now : Z) : State := {|
  messages := initialMessages now;
  inputMessage := "";
  isLoading := false;
  currentQuiz := None;
  quizScore := 0;
  showQuizResultsFlag := false;
  activeMode := "chat"
|}.

Definition initialWorld (now : Z) : World :=
  {| state := initialState now; timers := []; toasts := [] |}.

(** ** The handlers (ChatInterface.jsx) *)

(** [addMessage(text, sender, name)]; [now] is the clock reading of
    [Date.now()] and [new Date()]. *)
Definition addMessage (now : Z) (text sender name : string) : World -> World :=
  let newMessage :=
    {| msg_id := now; msg_type := sender; msg_content := text;
       msg_timestamp := now; msg_sender := name |} in
  setMessages (fun prev => (prev ++ [newMessage])%list).

Definition startQuiz (w : World) : World :=
  let w := setCurrentQuiz
    (Some {| currentQuestion := 0; questions := quizQuestions; answers := [] |}) w in
  let w := setQuizScore (fun _ => 0) w in
  setShowQuizResults false w.

Definition handleQuickAction (now : Z) (actionId : string) (w : World) : World :=
  let w := setActiveMode actionId w in
  let w := setCurrentQuiz None w in
  let w := setShowQuizResults false w in
  let '(message, w) :=
    if String.eqb actionId "quiz" then
      ("Great choice! Let's test your financial knowledge. I'll ask you 5 questions about personal finance. Ready to start?",
       startQuiz w)
    else if String.eqb actionId "advice" then
      ("I'd love to give you personalized financial advice! Tell me about your current financial situation, goals, or any specific concerns you have.", w)
    else if String.eqb actionId "savings" then
      ("Excellent! Let's create a personalized savings plan. First, tell me about your current savings, income, and what you're saving for (emergency fund, vacation, house, retirement, etc.).", w)
    else if String.eqb actionId "budget" then
      ("Budgeting is key to financial success! Share your monthly income and expenses, and I'll help you create a realistic budget plan.", w)
    else
      ("How can I help you today?", w) in
  addMessage now message "bot" "Sam" w.

(** The updater [prev => ({...prev, currentQuestion: prev.currentQuestion + 1})]:
    reading [prev.currentQuestion] throws when [prev] is [null]. *)
Definition advanceQuestion (w : World) : Completion World :=
  match currentQuiz (state w) with
  | Some prev =>
      Normal (setCurrentQuiz
        (Some {| currentQuestion := currentQuestion prev + 1;
                 questions := questions prev; answers := answers prev |}) w)
  | None => Throw "TypeError: Cannot read properties of null (reading 'currentQuestion')"
  end.

Definition answerMessage (q : QuizQuestion) (answerIndex : Z) (isCorrect : bool) : string :=
  lines [
    "Your answer: " +:+ showOptString (nth_js (options q) answerIndex);
    "";
    if isCorrect then "✅ Correct!" else "❌ Incorrect!";
    "";
    explanation q ].

(** [handleQuizAnswer(answerIndex)] of the render with state [r], called when
    the clock reads [now]. *)
Definition handleQuizAnswer (r : State) (now : Z) (answerIndex : Z) (w : World)
  : Completion World :=
  match currentQuiz r with
  | None => Normal w
  | Some quiz =>
      match nth_js (questions quiz) (currentQuestion quiz) with
      | None => Throw "TypeError: Cannot read properties of undefined (reading 'correct')"
      | Some q =>
          let isCorrect := answerIndex =? correct q in
          let w := if isCorrect then setQuizScore (fun prev => prev + 1) w else w in
          let w := addMessage now (answerMessage q answerIndex isCorrect) "bot" "Sam" w in
          if currentQuestion quiz <? Z.of_nat (length (questions quiz)) - 1 then
            w ← advanceQuestion w;
            Normal (setTimeout (NextQuestionCallback quiz) now w)
          else
            Normal (setTimeout (ShowResultsCallback (quizScore r)) now w)
      end
  end.

(** The first delayed callback of [handleQuizAnswer], run when the clock
    reads [now]. *)
Definition nextQuestionCallback (quiz : Quiz) (now : Z) (w : World) : Completion World :=
  match nth_js (questions quiz) (currentQuestion quiz + 1) with
  | None => Throw "TypeError: Cannot read properties of undefined (reading 'question')"
  | Some nextQuestion =>
      Normal (addMessage now
        ("Question " +:+ showZ (currentQuestion quiz + 2) +:+ ": " +:+ question nextQuestion)
        "bot" "Sam" w)
  end.

Definition percentage (score : Z) : float :=
  (Z2float score / Z2float (Z.of_nat (length quizQuestions)) * 100)%float.

Definition scoredLine (opening : string) (score : Z) (pct : float) : string :=
  opening +:+ " You scored " +:+ showZ score +:+ "/"
  +:+ showZ (Z.of_nat (length quizQuestions)) +:+ " (" +:+ numberToString pct +:+ "%)".

Definition expertTier : string :=
  "🏆 You're a financial expert! Keep up the great work and continue learning about personal finance.".
Definition intermediateTier : string :=
  "📚 You have a solid foundation. Let's work on improving your knowledge together!".
Definition beginnerTier : string :=
  "💡 Don't worry - financial literacy is a journey. I'm here to help you learn and grow!".

Definition expertMessage (score : Z) (pct : float) : string :=
  lines [ scoredLine "🎉 Congratulations!" score pct; ""; expertTier ].
Definition intermediateMessage (score : Z) (pct : float) : string :=
  lines [ scoredLine "👍 Good job!" score pct; ""; intermediateTier ].
Definition beginnerMessage (score : Z) (pct : float) : string :=
  lines [ scoredLine "📖 Nice effort!" score pct; ""; beginnerTier ].

(** The [if]/[else if]/[else] of [showQuizResults]. *)
Definition resultMessage (score : Z) (pct : float) : string :=
  if (80 <=? pct)%float then expertMessage score pct
  else if (60 <=? pct)%float then intermediateMessage score pct
  else beginnerMessage score pct.

(** [showQuizResults()] of a render whose [quizScore] is [score]. *)
Definition showQuizResults (score : Z) (now : Z) (w : World) : World :=
  let pct := percentage score in
  let w := addMessage now (resultMessage score pct) "bot" "Sam" w in
  let w := setShowQuizResults true w in
  setCurrentQuiz None w.

(** [handleSendMessage(e)] of the render with state [r]. The clock reads
    [now] when the user message is built and [later] when the reply is
    added, after the [await]. *)
Definition handleSendMessage (r : State) (now later : Z) (w : World) : World :=
  if String.eqb (trim (inputMessage r)) "" || isLoading r then w
  else
    let userMessage :=
      {| msg_id := now; msg_type := "user"; msg_content := trim (inputMessage r);
         msg_timestamp := now; msg_sender := "You" |} in
    let w := setMessages (fun prev => (prev ++ [userMessage])%list) w in
    let w := setInputMessage "" w in
    let w := setIsLoading true w in
    let w :=
      match generateAIResponse (trim (inputMessage r)) with
      | Normal response => addMessage later response "bot" "Sam" w
      | Throw _ =>
          let w := addMessage later
            "I'm having trouble processing your request right now. Please try again!"
            "bot" "Sam" w in
          toastError "Failed to get response from Sam" w
      end in
    setIsLoading false w.

Definition resetChat (now : Z) (w : World) : World :=
  let w := setMessages (fun _ => initialMessages now) w in
  let w := setCurrentQuiz None w in
  let w := setShowQuizResults false w in
  setActiveMode "chat" w.

(** ** The event loop *)

(** What moves the component: the user acting on what the latest render
    shows, or the event loop running the oldest timer once it is due. *)
Inductive Event : Type :=
| ClickQuickAction (actionId : string)
| ClickQuizOption (index : Z)
| ChangeInput (value : string)
| SubmitForm (later : Z)
| ClickResetChat
| ClickTakeQuizAgain
| Timeout.

Definition runCallback (cb : TimerCallback) (now : Z) (w : World) : Completion World :=
  match cb with
  | NextQuestionCallback quiz => nextQuestionCallback quiz now w
  | ShowResultsCallback score => Normal (showQuizResults score now w)
  end.

(** One event, arriving when the clock reads [now]; handlers are those of
    the latest render, whose state is [state w]. The quiz options are
    rendered only while [currentQuiz] is set and the "Take Quiz Again"
    button only while the flag is. *)
Definition step (now : Z) (ev : Event) (w : World) : Completion World :=
  let r := state w in
  match ev with
  | ClickQuickAction actionId => Normal (handleQuickAction now actionId w)
  | ClickQuizOption index => handleQuizAnswer r now index w
  | ChangeInput value => Normal (setInputMessage value w)
  | SubmitForm later => Normal (handleSendMessage r now later w)
  | ClickResetChat => Normal (resetChat now w)
  | ClickTakeQuizAgain =>
      if showQuizResultsFlag r then
        Normal (handleQuickAction now "quiz" (setShowQuizResults false w))
      else Normal w
  | Timeout =>
      match timers w with
      | t :: rest =>
          if due t <=? now then
            runCallback (callback t) now
              {| state := state w; timers := rest; toasts := toasts w |}
          else Normal w
      | [] => Normal w
      end
  end.

Fixpoint run (trace : list (Z * Event)) (w : World) : Completion World :=
  match trace with
  | [] => Normal w
  | (now, ev) :: trace' => w' ← step now ev w; run trace' w'
  end.

End Platform.

(** ** The analytics component (AIAnalytics: handleAnalysis, generateMockResults) *)

(** A JavaScript object literal: its fields in insertion order. *)
#[local] Unset Elimination Schemes.
Inductive Json : Type :=
| JBool (b : bool)
| JNum (x : float)
| JStr (s : string)
| JArr (items : list Json)
| JObj (fields : list (string * Json)).
#[local] Set Elimination Schemes.

Inductive Toast : Type :=
| ToastSuccess (text : string)
| ToastError (text : string).

Record AnalyticsState : Type := {
  activeTab : string;
  isAnalyzing : bool;
  analysisResults : option Json;
  selectedTimeframe : string
}.

Record AnalyticsWorld : Type := {
  astate : AnalyticsState;
  atoasts : list Toast
}.

Definition initialAnalytics : AnalyticsWorld := {|
  astate := {| activeTab := "predictions"; isAnalyzing := false;
               analysisResults := None; selectedTimeframe := "1_year" |};
  atoasts := []
|}.

Definition setIsAnalyzing (v : bool) (w : AnalyticsWorld) : AnalyticsWorld :=
  {| astate := {| activeTab := activeTab (astate w); isAnalyzing := v;
                  analysisResults := analysisResults (astate w);
                  selectedTimeframe := selectedTimeframe (astate w) |};
     atoasts := atoasts w |}.

Definition setAnalysisResults (v : option Json) (w : AnalyticsWorld) : AnalyticsWorld :=
  {| astate := {| activeTab := activeTab (astate w);
                  isAnalyzing := isAnalyzing (astate w);
                  analysisResults := v;
                  selectedTimeframe := selectedTimeframe (astate w) |};
     atoasts := atoasts w |}.

Definition toast (t : Toast) (w : AnalyticsWorld) : AnalyticsWorld :=
  {| astate := astate w; atoasts := (atoasts w ++ [t])%list |}.

(* The decimal literals below denote the nearest doubles, as in JavaScript. *)
#[local] Set Warnings "-inexact-float".

Definition aiInsights : Json := JArr [
  JObj [
    ("type", JStr "ai_spending_insight");
    ("title", JStr "AI-Powered Spending Analysis");
    ("description", JStr "Advanced analysis of your spending patterns using AI algorithms");
    ("insights", JArr [
       JStr "Your top spending category Housing represents 45.2% of total spending. Consider diversifying expenses.";
       JStr "Your spending is concentrated in few categories. Consider diversifying for better financial health." ]);
    ("priority", JStr "high");
    ("ai_generated", JBool true) ];
  JObj [
    ("type", JStr "ai_savings_insight");
    ("title", JStr "AI-Powered Savings Analysis");
    ("description", JStr "Intelligent analysis of your savings behavior and optimization opportunities");
    ("insights", JArr [
       JStr "Good savings rate! AI suggests increasing to 30% for better financial security and faster goal achievement." ]);
    ("priority", JStr "medium");
    ("ai_generated", JBool true) ] ].

Definition spendingPrediction : Json := JObj [
  ("prediction_type", JStr "spending_patterns");
  ("next_month_prediction", JNum 1850.50%float);
  ("confidence_interval", JObj [
     ("lower", JNum 1650.25%float);
     ("upper", JNum 2050.75%float);
     ("confidence_level", JNum 0.95%float) ]);
  ("category_predictions", JObj [
     ("Housing", JObj [ ("predicted", JNum 1200%float); ("confidence", JNum 0.92%float) ]);
     ("Food", JObj [ ("predicted", JNum 450%float); ("confidence", JNum 0.88%float) ]);
     ("Transportation", JObj [ ("predicted", JNum 200%float); ("confidence", JNum 0.85%float) ]) ]) ].

Definition savingsPrediction : Json := JObj [
  ("prediction_type", JStr "savings_growth");
  ("current_savings", JNum 15000%float);
  ("monthly_contribution", JNum 800%float);
  ("expected_annual_return", JNum 0.07%float);
  ("predictions", JObj [
     ("1_years", JObj [
        ("future_value", JNum 25800%float);
        ("total_contributions", JNum 9600%float);
        ("interest_earned", JNum 1200%float);
        ("growth_multiplier", JNum 1.72%float) ]);
     ("5_years", JObj [
        ("future_value", JNum 65000%float);
        ("total_contributions", JNum 48000%float);
        ("interest_earned", JNum 2000%float);
        ("growth_multiplier", JNum 4.33%float) ]) ]) ].

(** [generateMockResults(analysisType)]; [isoNow] is what
    [new Date().toISOString()] returns. *)
Definition generateMockResults (analysisType : string) (isoNow : string) : Json :=
  let baseResults := [
    ("timestamp", JStr isoNow);
    ("analysis_type", JStr analysisType);
    ("user_id", JStr "user_123") ] in
  if String.eqb analysisType "comprehensive" then
    JObj (baseResults ++ [
      ("ai_insights", aiInsights);
      ("spending_prediction", spendingPrediction);
      ("savings_prediction", savingsPrediction) ])%list
  else
    JObj baseResults.

(** [handleAnalysis(analysisType = 'comprehensive')]. [delay] is how the
    awaited three-second promise settles. *)
Definition handleAnalysis (delay : Completion unit) (analysisType : option string)
    (isoNow : string) (w : AnalyticsWorld) : AnalyticsWorld :=
  let analysisType := default "comprehensive" analysisType in
  let w := setIsAnalyzing true w in
  let w :=
    match delay with
    | Normal _ =>
        let mockResults := generateMockResults analysisType isoNow in
        let w := setAnalysisResults (Some mockResults) w in
        toast (ToastSuccess "AI Analysis completed successfully!") w
    | Throw _ =>
        toast (ToastError "Analysis failed. Please try again.") w
    end in
  setIsAnalyzing false w.

(** * Predicates of the statements *)

(** [k] occurs in [s] as a contiguous substring. *)
Definition occursIn (k s : string) : Prop :=
  exists pre post, s = pre +:+ k +:+ post.

(** The content of the newest message of the log. *)
Definition lastContent (w : World) : option string :=
  msg_content <$> last (messages (state w)).

(** ** What every reachable world satisfies *)

Definition quizOk (quiz : Quiz) : Prop :=
  questions quiz = quizQuestions /\ 0 <= currentQuestion quiz <= 4.

Definition timerOk (t : Timer) : Prop :=
  match callback t with
  | NextQuestionCallback quiz =>
      questions quiz = quizQuestions /\ 0 <= currentQuestion quiz < 4
  | ShowResultsCallback _ => True
  end.

Definition wellFormed (w : World) : Prop :=
  (forall quiz, currentQuiz (state w) = Some quiz -> quizOk quiz) /\
  Forall timerOk (timers w) /\
  0 <= quizScore (state w).

(** The last clock reading an event makes. *)
Definition latest (now : Z) (ev : Event) : Z :=
  match ev with
  | SubmitForm later => later
  | _ => now
  end.

(** The clock never runs backwards along a trace: every reading is at
    least the reading before it, starting from [c]. *)
Fixpoint clockMonotone (c : Z) (trace : list (Z * Event)) : Prop :=
  match trace with
  | [] => True
  | (now, ev) :: trace' =>
      c <= now /\ now <= latest now ev /\ clockMonotone (latest now ev) trace'
  end.

(** The ids of the log, oldest first. *)
Definition ids (w : World) : list Z := map msg_id (messages (state w)).

Definition logOk (c : Z) (w : World) : Prop :=
  StronglySorted Z.le (ids w) /\ Forall (fun i => i <= c) (ids w).

(** The message the [switch] of [handleQuickAction] picks. *)
Definition quickActionMessage (actionId : string) : string :=
  if String.eqb actionId "quiz" then
    "Great choice! Let's test your financial knowledge. I'll ask you 5 questions about personal finance. Ready to start?"
  else if String.eqb actionId "advice" then
    "I'd love to give you personalized financial advice! Tell me about your current financial situation, goals, or any specific concerns you have."
  else if String.eqb actionId "savings" then
    "Excellent! Let's create a personalized savings plan. First, tell me about your current savings, income, and what you're saving for (emergency fund, vacation, house, retirement, etc.)."
  else if String.eqb actionId "budget" then
    "Budgeting is key to financial success! Share your monthly income and expenses, and I'll help you create a realistic budget plan."
  else "How can I help you today?".

(** Answer submissions in a trace. *)
Definition isAnswer (ev : Event) : bool :=
  match ev with
  | ClickQuizOption _ => true
  | _ => false
  end.

Definition answersIn (trace : list (Z * Event)) : Z :=
  Z.of_nat (length (filter (fun e => isAnswer (snd e) = true) trace)).

(** The quiz is on question [i] with score [s]; no callback is pending and
    no summary is shown. *)
Definition atQuestion (i s : Z) (w : World) : Prop :=
  currentQuiz (state w) =
    Some {| currentQuestion := i; questions := quizQuestions; answers := [] |} /\
  quizScore (state w) = s /\
  showQuizResultsFlag (state w) = false /\
  timers w = [].

(** The correct option of question [i] of the bank. *)
Definition correctAt (i : Z) : Z :=
  match nth_js quizQuestions i with
  | Some q => correct q
  | None => -1
  end.

(** What an answer adds to the score. *)
Definition point (i answerIndex : Z) : Z :=
  if answerIndex =? correctAt i then 1 else 0.

(** One round of the quiz as the user sees it: an option is clicked at
    [clicked] and the delayed callback runs at [fired]. *)
Definition answerRound (clicked answerIndex fired : Z) : list (Z * Event) :=
  [ (clicked, ClickQuizOption answerIndex); (fired, Timeout) ].

(** * Scenarios *)

(** The quiz has just been started from the first render. *)
Definition startedWorld : World := handleQuickAction 1000 "quiz" (initialWorld 0).

(** The quiz is started and the first four questions are answered
    correctly; each next question is announced when its timer is due. *)
Definition fourAnswered : list (Z * Event) := [
  (1000, ClickQuickAction "quiz");
  (2000, ClickQuizOption 0); (4000, Timeout);
  (5000, ClickQuizOption 1); (7000, Timeout);
  (8000, ClickQuizOption 1); (10000, Timeout);
  (11000, ClickQuizOption 1); (13000, Timeout) ].

(** All five questions answered correctly, then the summary when its timer
    is due. *)
Definition allCorrectSession : list (Z * Event) :=
  fourAnswered ++ [ (14000, ClickQuizOption 1); (16000, Timeout) ].

(** The correct option of the last question clicked twice, half a second
    apart: the panel still shows the question, the summary timer of the
    first click being due only at 16000. *)
Definition lastAnswerTwice : list (Z * Event) :=
  fourAnswered ++ [ (14000, ClickQuizOption 1); (14500, ClickQuizOption 1) ].

(** A question typed and sent; the reply is added in the millisecond in
    which the user message was built. *)
Definition sendInOneMillisecond : list (Z * Event) := [
  (1700000005000, ChangeInput "How do I save money?");
  (1700000009000, SubmitForm 1700000009000) ].

(** All five questions answered correctly, the summary timer still
    pending. *)
Definition fiveAnswered : list (Z * Event) :=
  fourAnswered ++ [ (14000, ClickQuizOption 1) ].

(** The world a trace leads to from the first render, on the ASCII
    platform (the first render itself, should a handler throw). *)
Definition worldAfter (trace : list (Z * Event)) : World :=
  match run (platform := asciiPlatform) trace (initialWorld 0) with
  | Normal w => w
  | Throw _ => initialWorld 0
  end.

(** * The rest of the two components *)

(** ** What the chat component renders and its key handler (ChatInterface.jsx) *)

(** The quiz panel: its heading, the question, the option buttons (each
    with the index its click passes to [handleQuizAnswer] and its label),
    the width of the progress bar and the progress line. *)
Record QuizPanel : Type := {
  panelHeading : string;
  panelQuestion : string;
  panelOptions : list (Z * string);
  panelWidth : string;
  panelProgress : string
}.

(** [options.map((option, index) => ...)] *)
Fixpoint indexed {A} (from : Z) (l : list A) : list (Z * A) :=
  match l with
  | [] => []
  | x :: l' => (from, x) :: indexed (from + 1) l'
  end.

Section Rendering.
Context {platform : JSPlatform}.

(** The [disabled] attribute of the send button. *)
Definition sendDisabled (s : State) : bool :=
  isLoading s || String.eqb (trim (inputMessage s)) "".

(** [handleKeyPress(e)] of the render with state [r]; [key] and [shiftKey]
    are the fields of the event. *)
Definition handleKeyPress (r : State) (key : string) (shiftKey : bool)
    (now later : Z) (w : World) : World :=
  if String.eqb key "Enter" && negb shiftKey then handleSendMessage r now later w
  else w.

(** The block [{currentQuiz && (...)}] of the render: nothing without a
    quiz; reading [.question] of a question that is not there throws. *)
Definition renderQuizPanel (s : State) : Completion (option QuizPanel) :=
  match currentQuiz s with
  | None => Normal None
  | Some quiz =>
      let shown := currentQuestion quiz + 1 in
      let total := Z.of_nat (length (questions quiz)) in
      match nth_js (questions quiz) (currentQuestion quiz) with
      | None => Throw "TypeError: Cannot read properties of undefined (reading 'question')"
      | Some q =>
          Normal (Some {|
            panelHeading := "Question " +:+ showZ shown +:+ " of " +:+ showZ total;
            panelQuestion := question q;
            panelOptions := indexed 0 (options q);
            panelWidth :=
              numberToString (Z2float shown / Z2float total * 100)%float +:+ "%";
            panelProgress := "Progress: " +:+ showZ shown +:+ "/" +:+ showZ total
          |})
      end
  end.

End Rendering.

(** ** What the analytics component reads of a result (AIAnalytics) *)

(** [obj[key]] on an object literal: the value of the field, [undefined]
    when there is none. *)
Fixpoint fieldOf (fields : list (string * Json)) (key : string) : option Json :=
  match fields with
  | [] => None
  | (k, v) :: rest => if String.eqb k key then Some v else fieldOf rest key
  end.

(** [v.key] for a value that is not [undefined] or [null]: an own field of
    an object, [undefined] otherwise (the keys read below are no built-in
    property names). *)
Definition getField (v : Json) (key : string) : option Json :=
  match v with
  | JObj fields => fieldOf fields key
  | _ => None
  end.

(** Truthiness, as [&&] tests it. *)
Definition truthy (v : option Json) : bool :=
  match v with
  | None => false
  | Some (JBool b) => b
  | Some (JNum x) => negb (PrimFloat.eqb x 0 || negb (PrimFloat.eqb x x))
  | Some (JStr s) => negb (String.eqb s "")
  | Some (JArr _) => true
  | Some (JObj _) => true
  end.

(** Which blocks of figures the tabs show: the spending prediction and the
    savings growth of [renderPredictionsTab], guarded by
    [analysisResults && ... analysisResults.spending_prediction && ...], and
    the insight cards of [renderInsightsTab], guarded by
    [analysisResults?.ai_insights && ...]. *)
Record AnalyticsSections : Type := {
  showsSpending : bool;
  showsSavings : bool;
  showsInsights : bool
}.

Definition sectionsShown (s : AnalyticsState) : AnalyticsSections :=
  match analysisResults s with
  | None =>
      {| showsSpending := false; showsSavings := false; showsInsights := false |}
  | Some results =>
      {| showsSpending := truthy (getField results "spending_prediction");
         showsSavings := truthy (getField results "savings_prediction");
         showsInsights := truthy (getField results "ai_insights") |}
  end.

(** One click on "Run AI Analysis" or any other call of [handleAnalysis]:
    how the delay settles, the type passed and the clock as an ISO string. *)
Record AnalysisRun : Type := {
  runDelay : Completion unit;
  runType : option string;
  runIso : string
}.

Definition runAnalysis (w : AnalyticsWorld) (r : AnalysisRun) : AnalyticsWorld :=
  handleAnalysis (runDelay r) (runType r) (runIso r) w.

(** Calls of [handleAnalysis] one after the other. *)
Definition runAnalyses (runs : list AnalysisRun) (w : AnalyticsWorld) : AnalyticsWorld :=
  fold_left runAnalysis runs w.

(** The result of the most recent run whose delay completed, if any. *)
Fixpoint lastCompleted (runs : list AnalysisRun) (before : option Json) : option Json :=
  match runs with
  | [] => before
  | r :: rest =>
      lastCompleted rest
        match runDelay r with
        | Normal _ =>
            Some (generateMockResults (default "comprehensive" (runType r)) (runIso r))
        | Throw _ => before
        end
  end.

(** ** Predicates of the further statements *)

(** A trace without a click on the reset button. *)
Definition withoutReset (trace : list (Z * Event)) : Prop :=
  Forall (fun e => snd e <> ClickResetChat) trace.

(** Events that start no quiz: answers, typing, sending and timers. *)
Definition startsNoQuiz (ev : Event) : Prop :=
  match ev with
  | ClickQuizOption _ | ChangeInput _ | SubmitForm _ | Timeout => True
  | ClickQuickAction _ | ClickResetChat | ClickTakeQuizAgain => False
  end.

(** The scored summary has been shown and nothing is pending. *)
Definition completed (w : World) : Prop :=
  currentQuiz (state w) = None /\
  showQuizResultsFlag (state w) = true /\
  timers w = [].

(** * Properties *)

(** ** Substring search *)

Lemma startsWith_spec (k s : string) :
  startsWith s k = true <-> exists post, s = k +:+ post.
Proof.
  revert s. induction k as [|a k IH]; intros s; simpl.
  - split; [intros _; exists s; reflexivity | reflexivity].
  - destruct s as [|b s]; simpl.
    + split; [discriminate | intros [post Hpost]; discriminate].
    + rewrite andb_true_iff, Ascii.eqb_eq, IH. split.
      * intros [-> [post ->]]. exists post. reflexivity.
      * intros [post Hpost]. injection Hpost as -> ->. split; [reflexivity | eauto].
Qed.

Lemma includes_unfold (s k : string) :
  includes s k =
  startsWith s k || match s with EmptyString => false | String _ s' => includes s' k end.
Proof. destruct s; reflexivity. Qed.

Lemma includes_spec (s k : string) :
  includes s k = true <-> occursIn k s.
Proof.
  unfold occursIn. split.
  - induction s as [|c s IH]; rewrite includes_unfold, orb_true_iff.
    + intros [Hs | Hf]; [|discriminate].
      apply startsWith_spec in Hs as [post ->]. exists EmptyString, post. reflexivity.
    + intros [Hs | Hrest].
      * apply startsWith_spec in Hs as [post ->]. exists EmptyString, post. reflexivity.
      * destruct (IH Hrest) as (pre & post & ->). exists (String c pre), post. reflexivity.
  - intros (pre & post & ->). induction pre as [|c pre IH]; simpl.
    + rewrite includes_unfold, orb_true_iff. left. apply startsWith_spec. eauto.
    + rewrite IH. apply orb_true_r.
Qed.

Lemma includes_false_spec (s k : string) :
  includes s k = false <-> ~ occursIn k s.
Proof.
  rewrite <- includes_spec. destruct (includes s k); split; congruence.
Qed.

(** ** Lists *)

Lemma find_first {A} (f : A -> bool) (l : list A) (x : A) :
  find f l = Some x ->
  exists before after,
    l = (before ++ x :: after)%list /\ Forall (fun y => f y = false) before /\ f x = true.
Proof.
  induction l as [|a l IH]; simpl; [discriminate|].
  destruct (f a) eqn:Hfa.
  - intros [= ->]. exists [], l. repeat split; [constructor | assumption].
  - intros Hfind. destruct (IH Hfind) as (before & after & -> & Hb & Hx).
    exists (a :: before), after. repeat split; [constructor; assumption | assumption].
Qed.

Lemma find_none_all {A} (f : A -> bool) (l : list A) :
  find f l = None -> Forall (fun y => f y = false) l.
Proof.
  induction l as [|a l IH]; simpl; [constructor|].
  destruct (f a) eqn:Hfa; [discriminate|]. intros Hfind. constructor; auto.
Qed.

Lemma existsb_false_all {A} (f : A -> bool) (l : list A) :
  existsb f l = false <-> forall x, In x l -> f x = false.
Proof.
  induction l as [|a l IH]; simpl.
  - split; [intros _ x [] | reflexivity].
  - rewrite orb_false_iff, IH. split.
    + intros [Ha Hl] x [<- | Hx]; auto.
    + intros Hall. split; [apply Hall; left; reflexivity | intros x Hx; apply Hall; right; exact Hx].
Qed.

(** ** IEEE comparisons against the tier boundaries *)

Lemma SFcompare_finite_pos (m1 m2 : positive) (e1 e2 : Z) :
  SFcompare (S754_finite false m1 e1) (S754_finite false m2 e2) =
  Some (match Z.compare e1 e2 with
        | Lt => Lt
        | Gt => Gt
        | Eq => Pos.compare_cont Eq m1 m2
        end).
Proof. reflexivity. Qed.

(** Below a positive bound [m1 * 2^e1], hence not at or above a bound
    [m2 * 2^e2] that is no smaller. *)
Lemma SFltb_SFleb_false (x : spec_float) (m1 m2 : positive) (e1 e2 : Z) :
  e1 < e2 \/ (e1 = e2 /\ (m1 <= m2)%positive) ->
  SFltb x (S754_finite false m1 e1) = true ->
  SFleb (S754_finite false m2 e2) x = false.
Proof.
  intros Hle. unfold SFltb, SFleb.
  destruct x as [s|s| |s m e]; try (try destruct s; simpl; congruence).
  destruct s; [simpl; congruence|].
  rewrite !SFcompare_finite_pos.
  fold (Pos.compare m m1). fold (Pos.compare m2 m).
  destruct (Z.compare_spec e e1); destruct (Z.compare_spec e2 e);
    try lia; try congruence; subst.
  destruct (Pos.compare_spec m m1); destruct (Pos.compare_spec m2 m);
    try lia; congruence.
Qed.

Lemma below_80_not_expert (pct : float) :
  (pct <? 80)%float = true -> (80 <=? pct)%float = false.
Proof.
  rewrite ltb_spec, leb_spec.
  change (Prim2SF 80) with (S754_finite false 5629499534213120 (-46)).
  apply SFltb_SFleb_false. right. split; [reflexivity | lia].
Qed.

Lemma below_60_not_intermediate (pct : float) :
  (pct <? 60)%float = true -> (60 <=? pct)%float = false.
Proof.
  rewrite ltb_spec, leb_spec.
  change (Prim2SF 60) with (S754_finite false 8444249301319680 (-47)).
  apply SFltb_SFleb_false. right. split; [reflexivity | lia].
Qed.

Lemma below_60_not_expert (pct : float) :
  (pct <? 60)%float = true -> (80 <=? pct)%float = false.
Proof.
  rewrite ltb_spec, leb_spec.
  change (Prim2SF 60) with (S754_finite false 8444249301319680 (-47)).
  change (Prim2SF 80) with (S754_finite false 5629499534213120 (-46)).
  apply SFltb_SFleb_false. left. lia.
Qed.

Section AdvisorProperties.
Context {platform : JSPlatform}.

(** ** The advisor replies *)

(** The chain of [if]s is the first-match scan of the rule table. *)
Lemma generateAIResponse_spec_response (message : string) :
  generateAIResponse message = Normal (spec_response (toLowerCase message)).
Proof.
  unfold generateAIResponse, spec_response, spec_responseRules, spec_ruleMatches.
  cbn [find existsb keywords template].
  repeat match goal with
         | |- context [includes ?s ?k] =>
             destruct (includes s k); cbn [orb find existsb keywords template];
             try reflexivity
         end.
Qed.

(** C1. The reply is the template of the first rule, in declaration order,
    one of whose keywords occurs as a substring of the lower-cased input;
    when no keyword of any rule occurs in it, the reply is the fallback
    template. *)
Theorem generateAIResponse_first_match (message : string) :
  let lowered := toLowerCase message in
  (exists before rule after,
      spec_responseRules = (before ++ rule :: after)%list /\
      (forall earlier k,
          In earlier before -> In k (keywords earlier) -> ~ occursIn k lowered) /\
      (exists k, In k (keywords rule) /\ occursIn k lowered) /\
      generateAIResponse message = Normal (template rule))
  \/
  ((forall rule k,
       In rule spec_responseRules -> In k (keywords rule) -> ~ occursIn k lowered) /\
   generateAIResponse message = Normal defaultTemplate).
Proof.
  intros lowered. rewrite generateAIResponse_spec_response. fold lowered.
  unfold spec_response.
  destruct (find (spec_ruleMatches lowered) spec_responseRules) as [rule|] eqn:Hfind.
  - left. destruct (find_first _ _ _ Hfind) as (before & after & Hsplit & Hbefore & Hrule).
    exists before, rule, after. repeat split; [exact Hsplit | |].
    + intros earlier k Hin Hk. apply includes_false_spec.
      rewrite List.Forall_forall in Hbefore. specialize (Hbefore earlier Hin).
      unfold spec_ruleMatches in Hbefore.
      rewrite existsb_false_all in Hbefore. apply Hbefore, Hk.
    + unfold spec_ruleMatches in Hrule. apply existsb_exists in Hrule as (k & Hk & Hinc).
      exists k. split; [exact Hk | apply includes_spec, Hinc].
  - right. split; [|reflexivity].
    intros rule k Hin Hk. apply includes_false_spec.
    pose proof (find_none_all _ _ Hfind) as Hall.
    rewrite List.Forall_forall in Hall. specialize (Hall rule Hin).
    unfold spec_ruleMatches in Hall.
    rewrite existsb_false_all in Hall. apply Hall, Hk.
Qed.

(** The promise of [generateAIResponse] is always fulfilled. *)
Lemma generateAIResponse_normal (message : string) :
  exists response, generateAIResponse message = Normal response.
Proof. rewrite generateAIResponse_spec_response. eauto. Qed.

(** C6. The reply to a message is a function of the message alone: whatever
    the state of the render and of the world (log, quiz, score, timers) in
    two sends of the same text, both append the same reply, which is what
    [generateAIResponse] returns; the call never throws, so the error
    branch (apology and toast) is never taken. *)
Theorem generateAIResponse_total_history_independent
    (message : string) (r1 r2 : State) (w1 w2 : World) (now1 later1 now2 later2 : Z) :
  trim (inputMessage r1) = message ->
  trim (inputMessage r2) = message ->
  message <> "" ->
  isLoading r1 = false ->
  isLoading r2 = false ->
  exists response,
    generateAIResponse message = Normal response /\
    lastContent (handleSendMessage r1 now1 later1 w1) = Some response /\
    lastContent (handleSendMessage r2 now2 later2 w2) = Some response /\
    toasts (handleSendMessage r1 now1 later1 w1) = toasts w1 /\
    toasts (handleSendMessage r2 now2 later2 w2) = toasts w2.
Proof.
  intros Hm1 Hm2 Hne Hl1 Hl2.
  destruct (generateAIResponse_normal message) as [response Hresp].
  exists response. split; [exact Hresp|].
  apply String.eqb_neq in Hne.
  unfold handleSendMessage, lastContent.
  rewrite Hm1, Hm2, Hne, Hl1, Hl2, Hresp. cbn [orb].
  unfold addMessage, setIsLoading, setInputMessage, setMessages, updState.
  cbn [state messages toasts]. rewrite !last_snoc. repeat split; reflexivity.
Qed.

(** ** The summary tiers *)

(** C4. The tier of the summary is decided by the percentage alone: from 80
    up (so on [80,100]) the expert message, on [60,80) the intermediate
    message, below 60 (so on [0,60)) the beginner message; 80 itself is
    expert, 60 intermediate and 59 beginner. *)
Theorem resultMessage_tiers (score : Z) (pct : float) :
  ((80 <=? pct)%float = true -> (pct <=? 100)%float = true ->
   resultMessage score pct = expertMessage score pct) /\
  ((60 <=? pct)%float = true -> (pct <? 80)%float = true ->
   resultMessage score pct = intermediateMessage score pct) /\
  ((0 <=? pct)%float = true -> (pct <? 60)%float = true ->
   resultMessage score pct = beginnerMessage score pct) /\
  resultMessage score 80 = expertMessage score 80 /\
  resultMessage score 60 = intermediateMessage score 60 /\
  resultMessage score 59 = beginnerMessage score 59.
Proof.
  unfold resultMessage. repeat split.
  - intros -> _. reflexivity.
  - intros -> Hlt. rewrite (below_80_not_expert _ Hlt). reflexivity.
  - intros _ Hlt.
    rewrite (below_60_not_expert _ Hlt), (below_60_not_intermediate _ Hlt). reflexivity.
Qed.

End AdvisorProperties.

(** ** The quiz handlers *)

(** C2 (as the code has it). In a render whose quiz is in progress,
    answering with the correct index of the current question adds exactly 1
    to the score and any other index leaves the score as it is; in both
    cases the question index moves on by 1 when the current question is not
    the last one, and stays where it is on the last one. *)
Theorem handleQuizAnswer_score_and_index
    (w : World) (quiz : Quiz) (q : QuizQuestion) (now answerIndex : Z) :
  currentQuiz (state w) = Some quiz ->
  nth_js (questions quiz) (currentQuestion quiz) = Some q ->
  exists w',
    handleQuizAnswer (state w) now answerIndex w = Normal w' /\
    quizScore (state w') =
      quizScore (state w) + (if answerIndex =? correct q then 1 else 0) /\
    currentQuiz (state w') =
      Some {| currentQuestion :=
                if currentQuestion quiz <? Z.of_nat (length (questions quiz)) - 1
                then currentQuestion quiz + 1
                else currentQuestion quiz;
              questions := questions quiz;
              answers := answers quiz |}.
Proof.
  intros Hquiz Hq. unfold handleQuizAnswer. rewrite Hquiz, Hq.
  destruct (answerIndex =? correct q);
    destruct (currentQuestion quiz <? Z.of_nat (length (questions quiz)) - 1);
    unfold advanceQuestion, addMessage, setQuizScore, setMessages, updState;
    cbn [state currentQuiz]; rewrite ?Hquiz; cbn;
    eexists; (split; [reflexivity|]); cbn; rewrite ?Hquiz;
    (split; [lia || reflexivity | destruct quiz; reflexivity]).
Qed.

(** C10. When the render has no quiz ([currentQuiz] is [null]), an answer
    submission changes nothing: the world it returns is the world it got,
    with the same log, score, quiz state and timers. *)
Theorem handleQuizAnswer_without_quiz (r : State) (w : World) (now answerIndex : Z) :
  currentQuiz r = None ->
  handleQuizAnswer r now answerIndex w = Normal w.
Proof. intros Hnone. unfold handleQuizAnswer. rewrite Hnone. reflexivity. Qed.

(** C7. [startQuiz] puts the quiz at question 0 with score 0 whatever the
    world before it, and so do the two buttons that call it: the "quiz"
    quick action and "Take Quiz Again". *)
Theorem startQuiz_resets (w : World) (now : Z) :
  let fresh := Some {| currentQuestion := 0; questions := quizQuestions; answers := [] |} in
  let again := handleQuickAction now "quiz" (setShowQuizResults false w) in
  (currentQuiz (state (startQuiz w)) = fresh /\
   quizScore (state (startQuiz w)) = 0) /\
  (currentQuiz (state (handleQuickAction now "quiz" w)) = fresh /\
   quizScore (state (handleQuickAction now "quiz" w)) = 0) /\
  (currentQuiz (state again) = fresh /\ quizScore (state again) = 0).
Proof. repeat split. Qed.

Lemma quizQuestions_nth (i : Z) :
  0 <= i <= 4 -> exists q, nth_js quizQuestions i = Some q.
Proof.
  intros Hi.
  assert (i = 0 \/ i = 1 \/ i = 2 \/ i = 3 \/ i = 4) as Hcases by lia.
  destruct Hcases as [-> | [-> | [-> | [-> | ->]]]]; eexists; reflexivity.
Qed.

Lemma initialWorld_wellFormed (now : Z) : wellFormed (initialWorld now).
Proof.
  split; [intros quiz Hquiz; discriminate | split; [constructor | cbn; lia]].
Qed.

(** Projections of a world built by the setters, reduced from the outside
    in. *)
Ltac unfold_setters :=
  cbn [state timers toasts messages inputMessage isLoading currentQuiz quizScore
       showQuizResultsFlag activeMode
       addMessage setMessages setInputMessage setIsLoading setCurrentQuiz
       setQuizScore setShowQuizResults setActiveMode setTimeout toastError
       updState] in *.

Section Reachability.
Context {platform : JSPlatform}.

(** [handleQuickAction] with its [switch] read off: the message it picks,
    and [startQuiz] for the "quiz" action only. *)
Lemma handleQuickAction_eq (now : Z) (actionId : string) (w : World) :
  handleQuickAction now actionId w =
  let w1 := setShowQuizResults false (setCurrentQuiz None (setActiveMode actionId w)) in
  addMessage now (quickActionMessage actionId) "bot" "Sam"
    (if String.eqb actionId "quiz" then startQuiz w1 else w1).
Proof.
  unfold handleQuickAction, quickActionMessage.
  destruct (String.eqb actionId "quiz"); [reflexivity|].
  destruct (String.eqb actionId "advice"); [reflexivity|].
  destruct (String.eqb actionId "savings"); [reflexivity|].
  destruct (String.eqb actionId "budget"); reflexivity.
Qed.

Lemma handleQuickAction_wellFormed (now : Z) (actionId : string) (w : World) :
  wellFormed w -> wellFormed (handleQuickAction now actionId w).
Proof.
  intros (Hquiz & Htimers & Hscore). rewrite handleQuickAction_eq.
  unfold wellFormed, startQuiz.
  destruct (String.eqb actionId "quiz"); unfold_setters;
    (split; [|split; [assumption | lia]]).
  - intros quiz [= <-]. split; [reflexivity | cbn; lia].
  - intros quiz [=].
Qed.

Lemma handleQuizAnswer_wellFormed (now index : Z) (w : World) :
  wellFormed w ->
  exists w', handleQuizAnswer (state w) now index w = Normal w' /\ wellFormed w'.
Proof.
  intros (Hquiz & Htimers & Hscore). unfold handleQuizAnswer.
  destruct (currentQuiz (state w)) as [quiz|] eqn:Hcur.
  2:{ exists w. split; [reflexivity|]. rewrite <- Hcur in Hquiz. exact (conj Hquiz (conj Htimers Hscore)). }
  destruct (Hquiz quiz eq_refl) as [Hqs Hrange].
  destruct (quizQuestions_nth _ Hrange) as [q Hq]. rewrite Hqs, Hq.
  change (Z.of_nat (length quizQuestions) - 1) with 4.
  destruct (currentQuestion quiz <? 4) eqn:Hlast.
  - apply Z.ltb_lt in Hlast. unfold advanceQuestion.
    destruct (index =? correct q); unfold_setters; rewrite Hcur; cbn [mbind Completion_bind];
      (eexists; split; [reflexivity|]); unfold wellFormed; unfold_setters;
      (split; [intros quiz' [= <-]; split; [exact Hqs | cbn; lia]
              | split; [apply Forall_app; split; [assumption | repeat constructor; [exact Hqs | lia | lia]] | lia]]).
  - destruct (index =? correct q); unfold_setters;
      (eexists; split; [reflexivity|]); unfold wellFormed; unfold_setters;
      (split; [intros quiz' Hq'; apply Hquiz; congruence
              | split; [apply Forall_app; split; [assumption | repeat constructor] | lia]]).
Qed.

Lemma nextQuestionCallback_wellFormed (quiz : Quiz) (now : Z) (w : World) :
  questions quiz = quizQuestions -> 0 <= currentQuestion quiz < 4 ->
  wellFormed w ->
  exists w', nextQuestionCallback quiz now w = Normal w' /\ wellFormed w'.
Proof.
  intros Hqs Hrange Hw. unfold nextQuestionCallback.
  destruct (quizQuestions_nth (currentQuestion quiz + 1)) as [q Hq]; [lia|].
  rewrite Hqs, Hq. eexists. split; [reflexivity|]. exact Hw.
Qed.

Lemma showQuizResults_wellFormed (score now : Z) (w : World) :
  wellFormed w -> wellFormed (showQuizResults score now w).
Proof.
  intros (Hquiz & Htimers & Hscore). unfold wellFormed, showQuizResults. unfold_setters.
  split; [intros quiz [=] | split; assumption].
Qed.

Lemma step_wellFormed (now : Z) (ev : Event) (w : World) :
  wellFormed w ->
  exists w', step now ev w = Normal w' /\ wellFormed w'.
Proof.
  intros Hw. destruct ev as [actionId | index | value | later | | | ]; cbn [step].
  - eexists. split; [reflexivity|]. apply handleQuickAction_wellFormed, Hw.
  - apply handleQuizAnswer_wellFormed, Hw.
  - eexists. split; [reflexivity|]. exact Hw.
  - eexists. split; [reflexivity|]. destruct Hw as (Hquiz & Htimers & Hscore).
    unfold wellFormed, handleSendMessage.
    destruct (String.eqb (trim (inputMessage (state w))) "" || isLoading (state w));
      [exact (conj Hquiz (conj Htimers Hscore))|].
    destruct (generateAIResponse (trim (inputMessage (state w)))); unfold_setters;
      exact (conj Hquiz (conj Htimers Hscore)).
  - eexists. split; [reflexivity|]. destruct Hw as (Hquiz & Htimers & Hscore).
    unfold wellFormed, resetChat. unfold_setters.
    split; [intros quiz [=] | split; assumption].
  - destruct (showQuizResultsFlag (state w)); eexists; (split; [reflexivity|]); [|exact Hw].
    apply handleQuickAction_wellFormed. exact Hw.
  - destruct (timers w) as [|t rest] eqn:Htimers; [eexists; split; [reflexivity | exact Hw]|].
    destruct (due t <=? now); [|eexists; split; [reflexivity | exact Hw]].
    destruct Hw as (Hquiz & Hts & Hscore). rewrite Htimers in Hts.
    apply Forall_cons in Hts as [Ht Hrest].
    assert (wellFormed {| state := state w; timers := rest; toasts := toasts w |}) as Hw'
      by exact (conj Hquiz (conj Hrest Hscore)).
    unfold timerOk in Ht. destruct (callback t) as [quiz | score]; cbn [runCallback].
    + destruct Ht as [Hqs Hrange]. apply nextQuestionCallback_wellFormed; assumption.
    + eexists. split; [reflexivity|]. apply showQuizResults_wellFormed, Hw'.
Qed.

Lemma run_wellFormed (trace : list (Z * Event)) (w : World) :
  wellFormed w ->
  exists w', run trace w = Normal w' /\ wellFormed w'.
Proof.
  revert w. induction trace as [|[now ev] trace IH]; intros w Hw; cbn [run].
  - eauto.
  - destruct (step_wellFormed now ev w Hw) as (w1 & -> & Hw1). apply IH, Hw1.
Qed.

Lemma idsOk_snoc (c a : Z) (l : list Z) :
  StronglySorted Z.le l -> Forall (fun i => i <= c) l -> c <= a ->
  StronglySorted Z.le (l ++ [a]) /\ Forall (fun i => i <= a) (l ++ [a]).
Proof.
  intros Hs Hb Hca. induction Hs as [|x l Hs IH Hx]; cbn.
  - split; repeat constructor. lia.
  - apply Forall_cons in Hb as [Hxc Hb]. destruct (IH Hb) as [IHs IHb].
    split; constructor; try assumption; [|lia].
    apply Forall_app. split; [assumption | repeat constructor; lia].
Qed.

Lemma StronglySorted_lookup (l : list Z) (i j : nat) (x y : Z) :
  StronglySorted Z.le l -> (i < j)%nat -> l !! i = Some x -> l !! j = Some y -> x <= y.
Proof.
  intros Hs. revert i j. induction Hs as [|a l Hs IH Ha]; intros i j Hij Hi Hj.
  - discriminate.
  - destruct j as [|j]; [lia|]. destruct i as [|i]; cbn in Hi, Hj.
    + injection Hi as <-. rewrite Forall_forall in Ha. apply Ha.
      eapply list_elem_of_lookup_2, Hj.
    + apply (IH i j); [lia | assumption | assumption].
Qed.

Lemma handleQuickAction_ids (now : Z) (actionId : string) (w : World) :
  ids (handleQuickAction now actionId w) = ids w ++ [now].
Proof.
  rewrite handleQuickAction_eq. unfold ids, startQuiz.
  destruct (String.eqb actionId "quiz"); unfold_setters; rewrite map_app; reflexivity.
Qed.

Lemma step_ids (now : Z) (ev : Event) (w w' : World) :
  step now ev w = Normal w' ->
  ids w' = [1; 2] \/ ids w' = ids w \/ ids w' = ids w ++ [now] \/
  ids w' = ids w ++ [now; latest now ev].
Proof.
  destruct ev as [actionId | index | value | later | | | ]; cbn [step latest].
  - intros [= <-]. right; right; left. apply handleQuickAction_ids.
  - unfold handleQuizAnswer.
    destruct (currentQuiz (state w)) as [quiz|] eqn:Hcur; [|intros [= <-]; auto].
    destruct (nth_js (questions quiz) (currentQuestion quiz)) as [q|]; [|discriminate].
    destruct (currentQuestion quiz <? Z.of_nat (length (questions quiz)) - 1).
    + unfold advanceQuestion.
      destruct (index =? correct q); unfold_setters; rewrite Hcur; cbn [mbind Completion_bind];
        intros [= <-]; right; right; left; unfold ids; unfold_setters;
        rewrite map_app; reflexivity.
    + destruct (index =? correct q); unfold_setters;
        intros [= <-]; right; right; left; unfold ids; unfold_setters;
        rewrite map_app; reflexivity.
  - intros [= <-]. auto.
  - intros [= <-]. unfold handleSendMessage.
    destruct (String.eqb (trim (inputMessage (state w))) "" || isLoading (state w)); [auto|].
    right; right; right.
    destruct (generateAIResponse (trim (inputMessage (state w)))); unfold ids; unfold_setters;
      rewrite !map_app, <- app_assoc; reflexivity.
  - intros [= <-]. left. reflexivity.
  - destruct (showQuizResultsFlag (state w)); intros [= <-]; [|auto].
    right; right; left. rewrite handleQuickAction_ids. reflexivity.
  - destruct (timers w) as [|t rest]; [intros [= <-]; auto|].
    destruct (due t <=? now); [|intros [= <-]; auto].
    destruct (callback t) as [quiz | score]; cbn [runCallback].
    + unfold nextQuestionCallback.
      destruct (nth_js (questions quiz) (currentQuestion quiz + 1)); [|discriminate].
      intros [= <-]. right; right; left. unfold ids. unfold_setters.
      rewrite map_app; reflexivity.
    + intros [= <-]. right; right; left. unfold ids, showQuizResults. unfold_setters.
      rewrite map_app; reflexivity.
Qed.

Lemma step_logOk (c now : Z) (ev : Event) (w w' : World) :
  2 <= c -> c <= now -> now <= latest now ev ->
  logOk c w -> step now ev w = Normal w' -> logOk (latest now ev) w'.
Proof.
  intros Hc Hnow Hlater [Hs Hb] Hstep. unfold logOk.
  destruct (step_ids _ _ _ _ Hstep) as [-> | [-> | [-> | ->]]].
  - split; repeat constructor; lia.
  - split; [assumption|]. eapply Forall_impl; [exact Hb|]. cbn. intros; lia.
  - destruct (idsOk_snoc c now _ Hs Hb Hnow) as [Hs' Hb'].
    split; [assumption|]. eapply Forall_impl; [exact Hb'|]. cbn. intros; lia.
  - destruct (idsOk_snoc c now _ Hs Hb Hnow) as [Hs' Hb'].
    change [now; latest now ev] with ([now] ++ [latest now ev]). rewrite app_assoc.
    apply (idsOk_snoc now); assumption.
Qed.

Lemma run_logOk (trace : list (Z * Event)) (c : Z) (w : World) :
  2 <= c -> clockMonotone c trace -> wellFormed w -> logOk c w ->
  exists w' c', run trace w = Normal w' /\ wellFormed w' /\ logOk c' w'.
Proof.
  revert c w. induction trace as [|[now ev] trace IH]; intros c w Hc Hclock Hw Hlog; cbn [run].
  - eauto.
  - destruct Hclock as (Hnow & Hlater & Hclock).
    destruct (step_wellFormed now ev w Hw) as (w1 & Hstep & Hw1). rewrite Hstep.
    cbn [mbind Completion_bind].
    apply (IH (latest now ev)); [lia | assumption | assumption |].
    eapply step_logOk; eauto.
Qed.

(** X4. What does hold of the ids. They are clock readings, so along every
    trace whose clock never runs backwards, from a mount at a reading of at
    least 2, the run completes and a message appended later has an id at
    least that of every message appended earlier. *)
Lemma message_ids_nondecreasing (mounted : Z) (trace : list (Z * Event)) :
  2 <= mounted ->
  clockMonotone mounted trace ->
  exists w,
    run trace (initialWorld mounted) = Normal w /\
    forall (i j : nat) (earlier later : Message),
      (i < j)%nat ->
      messages (state w) !! i = Some earlier ->
      messages (state w) !! j = Some later ->
      msg_id earlier <= msg_id later.
Proof.
  intros Hmounted Hclock.
  assert (logOk mounted (initialWorld mounted)) as Hlog
    by (unfold logOk, ids; cbn; split; repeat constructor; lia).
  destruct (run_logOk trace mounted (initialWorld mounted) Hmounted Hclock
              (initialWorld_wellFormed mounted) Hlog) as (w & c & Hrun & _ & Hs & _).
  exists w. split; [exact Hrun|]. intros i j earlier later Hij Hi Hj.
  apply (StronglySorted_lookup (ids w) i j); [assumption | assumption | |];
    unfold ids; rewrite list_lookup_fmap; [rewrite Hi | rewrite Hj]; reflexivity.
Qed.

Lemma handleQuickAction_score (now : Z) (actionId : string) (w : World) :
  0 <= quizScore (state w) ->
  quizScore (state (handleQuickAction now actionId w)) <= quizScore (state w).
Proof.
  intros Hscore. rewrite handleQuickAction_eq. unfold startQuiz.
  destruct (String.eqb actionId "quiz"); unfold_setters; lia.
Qed.

Lemma step_score (now : Z) (ev : Event) (w w' : World) :
  0 <= quizScore (state w) ->
  step now ev w = Normal w' ->
  quizScore (state w') <= quizScore (state w) + (if isAnswer ev then 1 else 0).
Proof.
  intros Hscore.
  destruct ev as [actionId | index | value | later | | | ]; cbn [step isAnswer].
  - intros [= <-]. pose proof (handleQuickAction_score now actionId w Hscore). lia.
  - unfold handleQuizAnswer.
    destruct (currentQuiz (state w)) as [quiz|] eqn:Hcur; [|intros [= <-]; lia].
    destruct (nth_js (questions quiz) (currentQuestion quiz)) as [q|]; [|discriminate].
    destruct (currentQuestion quiz <? Z.of_nat (length (questions quiz)) - 1).
    + unfold advanceQuestion.
      destruct (index =? correct q); unfold_setters; rewrite Hcur; cbn [mbind Completion_bind];
        intros [= <-]; unfold_setters; lia.
    + destruct (index =? correct q); unfold_setters; intros [= <-]; unfold_setters; lia.
  - intros [= <-]. cbn. lia.
  - intros [= <-]. unfold handleSendMessage.
    destruct (String.eqb (trim (inputMessage (state w))) "" || isLoading (state w)); [lia|].
    destruct (generateAIResponse (trim (inputMessage (state w)))); unfold_setters; lia.
  - intros [= <-]. cbn. lia.
  - destruct (showQuizResultsFlag (state w)); intros [= <-]; [|lia].
    pose proof (handleQuickAction_score now "quiz" (setShowQuizResults false w) Hscore).
    cbn [setShowQuizResults] in *. unfold_setters. lia.
  - destruct (timers w) as [|t rest]; [intros [= <-]; lia|].
    destruct (due t <=? now); [|intros [= <-]; lia].
    destruct (callback t) as [quiz | score]; cbn [runCallback].
    + unfold nextQuestionCallback.
      destruct (nth_js (questions quiz) (currentQuestion quiz + 1)); [|discriminate].
      intros [= <-]. cbn. lia.
    + intros [= <-]. cbn. lia.
Qed.

Lemma answersIn_cons (now : Z) (ev : Event) (trace : list (Z * Event)) :
  answersIn ((now, ev) :: trace) = (if isAnswer ev then 1 else 0) + answersIn trace.
Proof.
  unfold answersIn. rewrite filter_cons. cbn [snd].
  destruct (isAnswer ev); case_decide; try congruence; cbn [length]; lia.
Qed.

(** The score grows by at most 1 per answer submitted. *)
Lemma run_score_bound (trace : list (Z * Event)) (w w' : World) :
  wellFormed w ->
  run trace w = Normal w' ->
  quizScore (state w') <= quizScore (state w) + answersIn trace.
Proof.
  revert w. induction trace as [|[now ev] trace IH]; intros w Hw; cbn [run].
  - intros [= <-]. unfold answersIn. cbn. lia.
  - destruct (step_wellFormed now ev w Hw) as (w1 & Hstep & Hw1). rewrite Hstep.
    cbn [mbind Completion_bind]. intros Hrun.
    pose proof (IH w1 Hw1 Hrun) as Hrest.
    destruct Hw as (_ & _ & Hscore).
    pose proof (step_score now ev w w1 Hscore Hstep) as Hone.
    rewrite answersIn_cons. lia.
Qed.
(** ** A session in the order the panel suggests *)

Lemma run_app (l1 l2 : list (Z * Event)) (w : World) :
  run (l1 ++ l2) w = run l1 w ≫= run l2.
Proof.
  revert w. induction l1 as [|[now ev] l1 IH]; intros w; cbn [run app].
  - reflexivity.
  - destruct (step now ev w) as [w1|e]; cbn [mbind Completion_bind]; [apply IH | reflexivity].
Qed.

Lemma startQuiz_atQuestion (now : Z) (w : World) :
  timers w = [] -> atQuestion 0 0 (handleQuickAction now "quiz" w).
Proof. intros Htimers. repeat split. exact Htimers. Qed.

Lemma round_advances (i s clicked answerIndex fired : Z) (w : World) :
  0 <= i < 4 ->
  clicked + 2000 <= fired ->
  atQuestion i s w ->
  exists w',
    run (answerRound clicked answerIndex fired) w = Normal w' /\
    atQuestion (i + 1) (s + point i answerIndex) w'.
Proof.
  intros Hi Hdue (Hquiz & Hscore & Hflag & Htimers).
  apply Z.leb_le in Hdue.
  destruct (quizQuestions_nth i) as [q Hq]; [lia|].
  destruct (quizQuestions_nth (i + 1)) as [q' Hq']; [lia|].
  assert ((i <? 4) = true) as Hlt by (apply Z.ltb_lt; lia).
  unfold answerRound, point, correctAt. rewrite Hq.
  cbn [run step]. unfold handleQuizAnswer. rewrite Hquiz.
  cbn [questions currentQuestion]. rewrite Hq.
  change (Z.of_nat (length quizQuestions) - 1) with 4. rewrite Hlt.
  unfold advanceQuestion.
  destruct (answerIndex =? correct q); unfold_setters; rewrite Hquiz;
    cbn [mbind Completion_bind]; unfold_setters; rewrite Htimers;
    cbn [app due callback]; rewrite Hdue; cbn [runCallback];
    unfold nextQuestionCallback; cbn [questions currentQuestion]; rewrite Hq';
    cbn [mbind Completion_bind];
    (eexists; split; [reflexivity|]); unfold atQuestion; unfold_setters;
    rewrite Hscore, Hflag; repeat split; lia.
Qed.

Lemma round_completes (s clicked answerIndex fired : Z) (w : World) :
  clicked + 2000 <= fired ->
  atQuestion 4 s w ->
  exists w',
    run (answerRound clicked answerIndex fired) w = Normal w' /\
    currentQuiz (state w') = None /\
    showQuizResultsFlag (state w') = true /\
    timers w' = [] /\
    quizScore (state w') = s + point 4 answerIndex /\
    lastContent w' = Some (resultMessage s (percentage s)).
Proof.
  intros Hdue (Hquiz & Hscore & Hflag & Htimers).
  apply Z.leb_le in Hdue.
  destruct (quizQuestions_nth 4) as [q Hq]; [lia|].
  unfold answerRound, point, correctAt. rewrite Hq.
  cbn [run step]. unfold handleQuizAnswer. rewrite Hquiz.
  cbn [questions currentQuestion]. rewrite Hq.
  change (Z.of_nat (length quizQuestions) - 1) with 4.
  change (4 <? 4) with false. cbn iota.
  destruct (answerIndex =? correct q);
    cbn [mbind Completion_bind]; unfold_setters; rewrite Htimers;
    cbn [app due callback]; rewrite Hdue; cbn [runCallback mbind Completion_bind];
    (eexists; split; [reflexivity|]); unfold showQuizResults, lastContent; unfold_setters;
    rewrite Hscore, ?last_snoc; repeat split; lia.
Qed.

(** X3. A whole session in the order the panel suggests: the quiz is started
    and each of the five questions is answered once, its delayed callback
    having run before the next click. The session ends Completed, with a
    score that counts the correct answers and lies between 0 and 5; the
    summary is the one for the score before the last answer. *)
Lemma five_rounds_complete
    (w : World) (started : Z)
    (c1 a1 f1 c2 a2 f2 c3 a3 f3 c4 a4 f4 c5 a5 f5 : Z) :
  timers w = [] ->
  c1 + 2000 <= f1 -> c2 + 2000 <= f2 -> c3 + 2000 <= f3 ->
  c4 + 2000 <= f4 -> c5 + 2000 <= f5 ->
  let before := point 0 a1 + point 1 a2 + point 2 a3 + point 3 a4 in
  exists w',
    run ((started, ClickQuickAction "quiz")
           :: answerRound c1 a1 f1 ++ answerRound c2 a2 f2 ++ answerRound c3 a3 f3
           ++ answerRound c4 a4 f4 ++ answerRound c5 a5 f5) w = Normal w' /\
    currentQuiz (state w') = None /\
    showQuizResultsFlag (state w') = true /\
    quizScore (state w') = before + point 4 a5 /\
    0 <= quizScore (state w') <= 5 /\
    lastContent w' = Some (resultMessage before (percentage before)).
Proof.
  intros Htimers H1 H2 H3 H4 H5 before.
  pose proof (startQuiz_atQuestion started w Htimers) as H0.
  destruct (round_advances 0 0 c1 a1 f1 _ ltac:(lia) H1 H0) as (w1 & Hr1 & Hw1).
  destruct (round_advances 1 _ c2 a2 f2 _ ltac:(lia) H2 Hw1) as (w2 & Hr2 & Hw2).
  destruct (round_advances 2 _ c3 a3 f3 _ ltac:(lia) H3 Hw2) as (w3 & Hr3 & Hw3).
  destruct (round_advances 3 _ c4 a4 f4 _ ltac:(lia) H4 Hw3) as (w4 & Hr4 & Hw4).
  replace (0 + point 0 a1 + point 1 a2 + point 2 a3 + point 3 a4) with before in Hw4
    by (unfold before; lia).
  destruct (round_completes _ c5 a5 f5 _ H5 Hw4)
    as (w5 & Hr5 & Hquiz & Hflag & _ & Hscore & Hlast).
  exists w5. split.
  - cbn [run step mbind Completion_bind].
    rewrite run_app, Hr1. cbn [mbind Completion_bind].
    rewrite run_app, Hr2. cbn [mbind Completion_bind].
    rewrite run_app, Hr3. cbn [mbind Completion_bind].
    rewrite run_app, Hr4. cbn [mbind Completion_bind]. exact Hr5.
  - repeat split; try assumption; rewrite Hscore; unfold before, point;
      repeat match goal with |- context [?a =? ?b] => destruct (a =? b) end; lia.
Qed.

(** ** Reachable worlds *)

(** X1. Every world a trace reaches from the first render has its quiz, when
    one is active, on one of the five questions, and a score of at least 0;
    no handler or callback throws on the way. *)
Lemma reachable_wellFormed (mounted : Z) (trace : list (Z * Event)) :
  exists w,
    run trace (initialWorld mounted) = Normal w /\
    (forall quiz, currentQuiz (state w) = Some quiz ->
       questions quiz = quizQuestions /\ 0 <= currentQuestion quiz <= 4) /\
    0 <= quizScore (state w).
Proof.
  destruct (run_wellFormed trace (initialWorld mounted) (initialWorld_wellFormed mounted))
    as (w & Hrun & Hquiz & _ & Hscore).
  exists w. repeat split; try assumption; apply (Hquiz quiz); assumption.
Qed.

(** C5 (the code at the all-correct session). The session ends Completed
    with a score of 5, and the summary, built by the callback of the render
    in which the last answer was given, reports 4/5 (80%) under the expert
    tier. *)
Theorem all_correct_summary_reports_four_of_five :
  exists w content,
    run allCorrectSession (initialWorld 0) = Normal w /\
    quizScore (state w) = 5 /\
    currentQuiz (state w) = None /\
    showQuizResultsFlag (state w) = true /\
    lastContent w = Some content /\
    content = lines [ "🎉 Congratulations! You scored 4/5 (80%)"; ""; expertTier ] /\
    includes content "5/5 (100%)" = false /\
    includes content expertTier = true.
Proof.
  eexists. eexists. split; [vm_compute; reflexivity|].
  repeat split; vm_compute; reflexivity.
Qed.

(** C3 (the code at the double click). Half a second after the fifth
    answer the quiz is still on the last question, and the same answer
    given again is counted again: the score is 6 on a quiz of 5
    questions. *)
Theorem last_answer_counted_twice :
  exists w quiz,
    run lastAnswerTwice (initialWorld 0) = Normal w /\
    currentQuiz (state w) = Some quiz /\
    currentQuestion quiz = 4 /\
    Z.of_nat (length (questions quiz)) = 5 /\
    quizScore (state w) = 6.
Proof.
  eexists. eexists. split; [vm_compute; reflexivity|].
  repeat split; vm_compute; reflexivity.
Qed.

End Reachability.

(** ** The analytics run *)

(** C8. When the awaited delay throws, the stored results stay as they
    were and the generic error toast is shown; when it completes, the
    results become the freshly generated object and the success toast is
    shown. Either way the run ends with [isAnalyzing] false. *)
Theorem handleAnalysis_results
    (w : AnalyticsWorld) (analysisType : option string) (isoNow error : string) :
  let failed := handleAnalysis (Throw error) analysisType isoNow w in
  let done := handleAnalysis (Normal tt) analysisType isoNow w in
  (analysisResults (astate failed) = analysisResults (astate w) /\
   atoasts failed = atoasts w ++ [ToastError "Analysis failed. Please try again."] /\
   isAnalyzing (astate failed) = false) /\
  (analysisResults (astate done) =
     Some (generateMockResults (default "comprehensive" analysisType) isoNow) /\
   atoasts done = atoasts w ++ [ToastSuccess "AI Analysis completed successfully!"] /\
   isAnalyzing (astate done) = false).
Proof. repeat split. Qed.

(** * Further properties of the two components *)

Section FurtherChat.
Context {platform : JSPlatform}.

(** ** Steps read off one handler at a time *)

Lemma run_cons (now : Z) (ev : Event) (trace : list (Z * Event)) (w : World) :
  run ((now, ev) :: trace) w = step now ev w ≫= run trace.
Proof. reflexivity. Qed.

(** What one answer does, in a render whose quiz is on a question. *)
Lemma handleQuizAnswer_effect
    (w : World) (quiz : Quiz) (q : QuizQuestion) (now answerIndex : Z) :
  currentQuiz (state w) = Some quiz ->
  nth_js (questions quiz) (currentQuestion quiz) = Some q ->
  let more := currentQuestion quiz <? Z.of_nat (length (questions quiz)) - 1 in
  exists w',
    handleQuizAnswer (state w) now answerIndex w = Normal w' /\
    quizScore (state w') =
      quizScore (state w) + (if answerIndex =? correct q then 1 else 0) /\
    messages (state w') =
      messages (state w) ++
        [ {| msg_id := now; msg_type := "bot";
             msg_content := answerMessage q answerIndex (answerIndex =? correct q);
             msg_timestamp := now; msg_sender := "Sam" |} ] /\
    currentQuiz (state w') =
      Some {| currentQuestion :=
                if more then currentQuestion quiz + 1 else currentQuestion quiz;
              questions := questions quiz; answers := answers quiz |} /\
    showQuizResultsFlag (state w') = showQuizResultsFlag (state w) /\
    timers w' =
      timers w ++
        [ {| due := now + 2000;
             callback := if more then NextQuestionCallback quiz
                         else ShowResultsCallback (quizScore (state w)) |} ].
Proof.
  intros Hquiz Hq more. unfold more, handleQuizAnswer. rewrite Hquiz, Hq.
  destruct (currentQuestion quiz <? Z.of_nat (length (questions quiz)) - 1);
    unfold advanceQuestion;
    destruct (answerIndex =? correct q); unfold_setters; rewrite ?Hquiz;
    cbn [mbind Completion_bind]; (eexists; split; [reflexivity|]); unfold_setters;
    rewrite ?Hquiz;
    (split; [lia || reflexivity
            | split; [reflexivity
                     | split; [destruct quiz; reflexivity | split; reflexivity]]]).
Qed.



(** The announcement callback, run from a world whose oldest timer it is. *)
Lemma timeout_announcement
    (w : World) (fired scheduled : Z) (quiz : Quiz) (next : QuizQuestion) (rest : list Timer) :
  timers w = {| due := scheduled; callback := NextQuestionCallback quiz |} :: rest ->
  scheduled <= fired ->
  nth_js (questions quiz) (currentQuestion quiz + 1) = Some next ->
  exists w',
    step fired Timeout w = Normal w' /\
    messages (state w') =
      messages (state w) ++
        [ {| msg_id := fired; msg_type := "bot";
             msg_content :=
               "Question " +:+ showZ (currentQuestion quiz + 2) +:+ ": " +:+ question next;
             msg_timestamp := fired; msg_sender := "Sam" |} ] /\
    currentQuiz (state w') = currentQuiz (state w) /\
    quizScore (state w') = quizScore (state w) /\
    timers w' = rest.
Proof.
  intros Htimers Hdue Hnext. apply Z.leb_le in Hdue. cbn [step].
  rewrite Htimers. cbn [due callback]. rewrite Hdue. cbn [runCallback].
  unfold nextQuestionCallback. rewrite Hnext.
  eexists. split; [reflexivity|]. unfold_setters. repeat split.
Qed.

(** The bank: every question has four options, offered under the indices 0 to 3,
    and its correct index is one of them. *)
Lemma quizQuestions_shape (i : Z) (q : QuizQuestion) :
  nth_js quizQuestions i = Some q ->
  0 <= i <= 4 /\ 0 <= correct q <= 3 /\ map fst (indexed 0 (options q)) = [0; 1; 2; 3].
Proof.
  unfold nth_js. destruct (i <? 0) eqn:Hneg; [discriminate|]. apply Z.ltb_ge in Hneg.
  intros Hq. assert (Z.to_nat i < 5)%nat as Hlt by (apply lookup_lt_Some in Hq; exact Hq).
  assert (i = 0 \/ i = 1 \/ i = 2 \/ i = 3 \/ i = 4) as Hcases by lia.
  destruct Hcases as [-> | [-> | [-> | [-> | ->]]]]; injection Hq as <-;
    (split; [lia | split; [cbn; lia | reflexivity]]).
Qed.

Lemma indexed_length {A} (l : list A) (from : Z) :
  length (indexed from l) = length l.
Proof.
  revert from. induction l as [|x l IH]; intros from; cbn; [reflexivity|].
  f_equal. apply IH.
Qed.

Lemma indexed_lookup {A} (l : list A) (from i : Z) :
  map fst (indexed from l) = [0; 1; 2; 3] -> i < 0 \/ 3 < i -> nth_js l i = None.
Proof.
  intros Hidx Hi.
  assert (length l = 4%nat) as Hlen
    by (rewrite <- (indexed_length l from), <- (length_map fst), Hidx; reflexivity).
  unfold nth_js. destruct (i <? 0) eqn:Hneg; [reflexivity|]. apply Z.ltb_ge in Hneg.
  apply lookup_ge_None. lia.
Qed.

Lemma indexed_labels {A} (l : list A) (from : Z) : map snd (indexed from l) = l.
Proof.
  revert from. induction l as [|x l IH]; intros from; cbn; [reflexivity|].
  f_equal. apply IH.
Qed.

(** ** The score and the quiz *)

(** X2. Whatever the user does from the first render, the score lies between 0
    and the number of answers submitted so far. *)
Theorem reachable_score_bound (mounted : Z) (trace : list (Z * Event)) :
  exists w,
    run trace (initialWorld mounted) = Normal w /\
    0 <= quizScore (state w) <= answersIn trace.
Proof.
  destruct (run_wellFormed trace (initialWorld mounted) (initialWorld_wellFormed mounted))
    as (w & Hrun & _ & _ & Hscore).
  exists w. split; [exact Hrun|].
  pose proof (run_score_bound trace _ _ (initialWorld_wellFormed mounted) Hrun) as Hbound.
  cbn in Hbound. lia.
Qed.

(** X9. In every reachable state an option index outside 0..3 never scores:
    the score is unchanged, and with a quiz on, the reply shows the answer as
    [undefined] and marks it incorrect. *)
Theorem out_of_range_option_never_scores
    (mounted : Z) (trace : list (Z * Event)) (now index : Z) :
  index < 0 \/ 3 < index ->
  exists w w',
    run trace (initialWorld mounted) = Normal w /\
    step now (ClickQuizOption index) w = Normal w' /\
    quizScore (state w') = quizScore (state w) /\
    forall quiz q,
      currentQuiz (state w) = Some quiz ->
      nth_js quizQuestions (currentQuestion quiz) = Some q ->
      lastContent w' =
        Some (lines [ "Your answer: undefined"; ""; "❌ Incorrect!"; ""; explanation q ]).
Proof.
  intros Hindex.
  destruct (run_wellFormed trace (initialWorld mounted) (initialWorld_wellFormed mounted))
    as (w & Hrun & Hquiz & _).
  exists w. cbn [step].
  destruct (currentQuiz (state w)) as [quiz|] eqn:Hcur.
  - destruct (Hquiz quiz eq_refl) as [Hqs Hrange].
    destruct (quizQuestions_nth _ Hrange) as [q Hq].
    destruct (quizQuestions_shape _ _ Hq) as (_ & Hcorrect & Hoptions).
    assert ((index =? correct q) = false) as Hwrong by (apply Z.eqb_neq; lia).
    destruct (handleQuizAnswer_effect w quiz q now index Hcur) as (w' & Hstep & Hscore & Hlog & _);
      [rewrite Hqs; exact Hq|].
    exists w'. split; [exact Hrun|]. split; [exact Hstep|].
    rewrite Hwrong in Hscore, Hlog. split; [lia|].
    intros quiz' q' [= <-] Hq'. rewrite Hq in Hq'. injection Hq' as <-.
    unfold lastContent. rewrite Hlog, last_snoc. cbn [fmap option_fmap option_map msg_content].
    unfold answerMessage. rewrite (indexed_lookup _ 0 index Hoptions Hindex). reflexivity.
  - exists w. split; [exact Hrun|].
    split; [unfold handleQuizAnswer; rewrite Hcur; reflexivity|].
    split; [reflexivity | intros quiz q [=]].
Qed.

Lemma step_completed (now : Z) (ev : Event) (w : World) :
  completed w -> startsNoQuiz ev ->
  exists w',
    step now ev w = Normal w' /\ completed w' /\ quizScore (state w') = quizScore (state w).
Proof.
  intros (Hquiz & Hflag & Htimers) Hev.
  destruct ev as [actionId | index | value | later | | | ]; cbn [step]; try contradiction.
  - unfold handleQuizAnswer. rewrite Hquiz. eexists. split; [reflexivity|].
    split; [exact (conj Hquiz (conj Hflag Htimers)) | reflexivity].
  - eexists. split; [reflexivity|]. split; [exact (conj Hquiz (conj Hflag Htimers)) | reflexivity].
  - eexists. split; [reflexivity|]. unfold completed, handleSendMessage.
    destruct (String.eqb (trim (inputMessage (state w))) "" || isLoading (state w));
      [split; [exact (conj Hquiz (conj Hflag Htimers)) | reflexivity]|].
    destruct (generateAIResponse (trim (inputMessage (state w)))); unfold_setters;
      (split; [exact (conj Hquiz (conj Hflag Htimers)) | reflexivity]).
  - rewrite Htimers. eexists. split; [reflexivity|].
    split; [exact (conj Hquiz (conj Hflag Htimers)) | reflexivity].
Qed.

(** X15. Once the summary has been shown and no callback is pending, the
    Completed state holds: answers, typing, sending and timer ticks leave the
    quiz closed, the results flag set and the score as it was. *)
Theorem completed_persists (trace : list (Z * Event)) (w : World) :
  completed w ->
  Forall (fun e => startsNoQuiz (snd e)) trace ->
  exists w',
    run trace w = Normal w' /\ completed w' /\ quizScore (state w') = quizScore (state w).
Proof.
  revert w. induction trace as [|[now ev] trace IH]; intros w Hw Hall; cbn [run].
  - eauto.
  - apply Forall_cons in Hall as [Hev Hall]. cbn [snd] in Hev.
    destruct (step_completed now ev w Hw Hev) as (w1 & -> & Hw1 & Hs1).
    cbn [mbind Completion_bind].
    destruct (IH w1 Hw1 Hall) as (w' & Hrun & Hw' & Hs').
    exists w'. split; [exact Hrun|]. split; [exact Hw' | congruence].
Qed.


(** X8. A quick action other than "quiz" abandons a quiz in progress without
    a summary: the panel is gone and later answers do nothing, while the
    score and the pending callbacks are kept. *)
Theorem other_quick_action_abandons_quiz (w : World) (now : Z) (actionId : string) :
  actionId <> "quiz" ->
  let w' := handleQuickAction now actionId w in
  currentQuiz (state w') = None /\
  renderQuizPanel (state w') = Normal None /\
  quizScore (state w') = quizScore (state w) /\
  timers w' = timers w /\
  lastContent w' = Some (quickActionMessage actionId) /\
  forall later index, handleQuizAnswer (state w') later index w' = Normal w'.
Proof.
  intros Hother w'. apply String.eqb_neq in Hother.
  assert (currentQuiz (state w') = None /\ quizScore (state w') = quizScore (state w) /\
          timers w' = timers w /\ lastContent w' = Some (quickActionMessage actionId))
    as (Hquiz & Hscore & Htimers & Hlast).
  { unfold w', lastContent. rewrite handleQuickAction_eq, Hother. unfold_setters.
    rewrite last_snoc. repeat split. }
  split; [exact Hquiz|]. split; [unfold renderQuizPanel; rewrite Hquiz; reflexivity|].
  split; [exact Hscore|]. split; [exact Htimers|]. split; [exact Hlast|].
  intros later index. unfold handleQuizAnswer. rewrite Hquiz. reflexivity.
Qed.

(** ** The quiz panel *)

(** The panel of a quiz on question [i] of the bank. *)
Lemma renderQuizPanel_at (s : State) (i : Z) (answered : list Z) (q : QuizQuestion) :
  currentQuiz s =
    Some {| currentQuestion := i; questions := quizQuestions; answers := answered |} ->
  nth_js quizQuestions i = Some q ->
  exists p,
    renderQuizPanel s = Normal (Some p) /\
    panelQuestion p = question q /\
    map fst (panelOptions p) = [0; 1; 2; 3] /\
    map snd (panelOptions p) = options q /\
    panelHeading p = "Question " +:+ showZ (i + 1) +:+ " of 5" /\
    panelProgress p = "Progress: " +:+ showZ (i + 1) +:+ "/5" /\
    panelWidth p = showZ (20 * (i + 1)) +:+ "%".
Proof.
  intros Hquiz Hq. destruct (quizQuestions_shape i q Hq) as (Hi & _ & Hoptions).
  unfold renderQuizPanel. rewrite Hquiz. cbn [questions currentQuestion]. rewrite Hq.
  eexists. split; [reflexivity|]. cbn [panelQuestion panelOptions panelHeading panelProgress panelWidth].
  split; [reflexivity|]. split; [exact Hoptions|]. split; [apply indexed_labels|].
  split; [reflexivity|]. split; [reflexivity|].
  assert (i = 0 \/ i = 1 \/ i = 2 \/ i = 3 \/ i = 4) as Hcases by lia.
  destruct Hcases as [-> | [-> | [-> | [-> | ->]]]]; vm_compute; reflexivity.
Qed.

(** X13. In every reachable state the quiz panel renders without throwing.
    With a quiz on it shows the current question of the bank, its four
    options under the indices 0 to 3, the heading "Question k of 5" and a
    progress bar of 20k per cent, k being the question index plus 1. *)
Theorem quiz_panel_renders (mounted : Z) (trace : list (Z * Event)) :
  exists w view,
    run trace (initialWorld mounted) = Normal w /\
    renderQuizPanel (state w) = Normal view /\
    match currentQuiz (state w), view with
    | None, None => True
    | Some quiz, Some p =>
        exists q,
          nth_js quizQuestions (currentQuestion quiz) = Some q /\
          panelQuestion p = question q /\
          map fst (panelOptions p) = [0; 1; 2; 3] /\
          map snd (panelOptions p) = options q /\
          panelHeading p = "Question " +:+ showZ (currentQuestion quiz + 1) +:+ " of 5" /\
          panelProgress p = "Progress: " +:+ showZ (currentQuestion quiz + 1) +:+ "/5" /\
          panelWidth p = showZ (20 * (currentQuestion quiz + 1)) +:+ "%"
    | _, _ => False
    end.
Proof.
  destruct (run_wellFormed trace (initialWorld mounted) (initialWorld_wellFormed mounted))
    as (w & Hrun & Hquiz & _).
  exists w. destruct (currentQuiz (state w)) as [quiz|] eqn:Hcur.
  - destruct (Hquiz quiz eq_refl) as [Hqs Hrange].
    destruct (quizQuestions_nth _ Hrange) as [q Hq].
    destruct quiz as [i qs answered]. cbn [questions currentQuestion] in *. subst qs.
    destruct (renderQuizPanel_at (state w) i answered q Hcur Hq) as (p & Hp & Hrest).
    exists (Some p). split; [exact Hrun|]. split; [exact Hp|]. exists q. split; [exact Hq | exact Hrest].
  - exists None. split; [exact Hrun|]. split; [|exact I].
    unfold renderQuizPanel. rewrite Hcur. reflexivity.
Qed.

(** X14. After an answer to one of the first four questions, the delayed
    message announces, by number and text, the question the quiz panel
    shows. *)
Theorem announcement_matches_panel
    (w : World) (i s clicked answerIndex fired : Z) :
  0 <= i < 4 ->
  clicked + 2000 <= fired ->
  atQuestion i s w ->
  exists w' p,
    run (answerRound clicked answerIndex fired) w = Normal w' /\
    renderQuizPanel (state w') = Normal (Some p) /\
    panelHeading p = "Question " +:+ showZ (i + 2) +:+ " of 5" /\
    lastContent w' = Some ("Question " +:+ showZ (i + 2) +:+ ": " +:+ panelQuestion p).
Proof.
  intros Hi Hdue (Hquiz & Hscore & Hflag & Htimers).
  destruct (quizQuestions_nth i) as [q Hq]; [lia|].
  destruct (quizQuestions_nth (i + 1)) as [next Hnext]; [lia|].
  destruct (handleQuizAnswer_effect w _ q clicked answerIndex Hquiz Hq)
    as (w1 & Hstep1 & _ & _ & Hquiz1 & _ & Htimers1).
  cbn [questions currentQuestion answers] in Hquiz1, Htimers1.
  change (Z.of_nat (length quizQuestions) - 1) with 4 in Hquiz1, Htimers1.
  assert ((i <? 4) = true) as Hlt by (apply Z.ltb_lt; lia).
  rewrite Hlt in Hquiz1, Htimers1. rewrite Htimers in Htimers1. cbn [app] in Htimers1.
  destruct (timeout_announcement w1 fired _ _ next _ Htimers1 Hdue Hnext)
    as (w2 & Hstep2 & Hlog2 & Hquiz2 & _).
  rewrite Hquiz1 in Hquiz2.
  destruct (renderQuizPanel_at (state w2) (i + 1) [] next Hquiz2 Hnext)
    as (p & Hp & Hquestion & _ & _ & Hheading & _).
  exists w2, p. split.
  - unfold answerRound. rewrite run_cons.
    change (step clicked (ClickQuizOption answerIndex) w)
      with (handleQuizAnswer (state w) clicked answerIndex w).
    rewrite Hstep1. cbn [mbind Completion_bind]. rewrite run_cons, Hstep2. reflexivity.
  - split; [exact Hp|]. replace (i + 2) with (i + 1 + 1) by lia. split; [exact Hheading|].
    unfold lastContent. rewrite Hlog2, last_snoc, Hquestion.
    cbn [currentQuestion fmap option_fmap option_map msg_content].
    replace (i + 1 + 1) with (i + 2) by lia. reflexivity.
Qed.

(** ** The log *)

Lemma handleSendMessage_messages (r : State) (now later : Z) (w : World) :
  exists added, messages (state (handleSendMessage r now later w)) = messages (state w) ++ added.
Proof.
  unfold handleSendMessage.
  destruct (String.eqb (trim (inputMessage r)) "" || isLoading r).
  - exists []. symmetry. apply app_nil_r.
  - destruct (generateAIResponse (trim (inputMessage r))); unfold_setters;
      rewrite <- app_assoc; eexists; reflexivity.
Qed.

Lemma step_appends (now : Z) (ev : Event) (w w' : World) :
  ev <> ClickResetChat ->
  step now ev w = Normal w' ->
  exists added, messages (state w') = messages (state w) ++ added.
Proof.
  intros Hev.
  destruct ev as [actionId | index | value | later | | | ]; cbn [step].
  - intros [= <-]. rewrite handleQuickAction_eq. unfold startQuiz.
    destruct (String.eqb actionId "quiz"); unfold_setters; eexists; reflexivity.
  - unfold handleQuizAnswer.
    destruct (currentQuiz (state w)) as [quiz|] eqn:Hcur;
      [|intros [= <-]; exists []; symmetry; apply app_nil_r].
    destruct (nth_js (questions quiz) (currentQuestion quiz)) as [q|]; [|discriminate].
    destruct (currentQuestion quiz <? Z.of_nat (length (questions quiz)) - 1).
    + unfold advanceQuestion.
      destruct (index =? correct q); unfold_setters; rewrite Hcur; cbn [mbind Completion_bind];
        intros [= <-]; unfold_setters; eexists; reflexivity.
    + destruct (index =? correct q); unfold_setters; intros [= <-]; unfold_setters;
        eexists; reflexivity.
  - intros [= <-]. exists []. symmetry. apply app_nil_r.
  - intros [= <-]. apply handleSendMessage_messages.
  - congruence.
  - destruct (showQuizResultsFlag (state w)); intros [= <-];
      [|exists []; symmetry; apply app_nil_r].
    rewrite handleQuickAction_eq. unfold startQuiz. cbn [String.eqb Ascii.eqb Bool.eqb].
    unfold_setters. eexists; reflexivity.
  - destruct (timers w) as [|t rest]; [intros [= <-]; exists []; symmetry; apply app_nil_r|].
    destruct (due t <=? now); [|intros [= <-]; exists []; symmetry; apply app_nil_r].
    destruct (callback t) as [quiz | score]; cbn [runCallback].
    + unfold nextQuestionCallback.
      destruct (nth_js (questions quiz) (currentQuestion quiz + 1)); [|discriminate].
      intros [= <-]. unfold_setters. eexists; reflexivity.
    + intros [= <-]. unfold showQuizResults. unfold_setters. eexists; reflexivity.
Qed.

(** X5. Between two resets the log only grows: along a trace without a click
    on the reset button the earlier log is a prefix of the later one, so no
    message is changed or removed. *)
Theorem log_append_only (trace : list (Z * Event)) (w w' : World) :
  withoutReset trace ->
  run trace w = Normal w' ->
  exists added, messages (state w') = messages (state w) ++ added.
Proof.
  revert w. induction trace as [|[now ev] trace IH]; intros w Hno; cbn [run].
  - intros [= <-]. exists []. symmetry. apply app_nil_r.
  - apply Forall_cons in Hno as [Hev Hno]. cbn [snd] in Hev.
    destruct (step now ev w) as [w1|e] eqn:Hstep; cbn [mbind Completion_bind]; [|discriminate].
    intros Hrun. destruct (step_appends _ _ _ _ Hev Hstep) as [added1 H1].
    destruct (IH w1 Hno Hrun) as [added2 H2].
    exists (added1 ++ added2). rewrite H2, H1. symmetry. apply app_assoc.
Qed.

(** X6. Resetting the chat cancels no timer and keeps the score: a summary
    scheduled before the reset is appended to the fresh log, right after the
    two greetings, and the results panel is shown. *)
Theorem reset_keeps_pending_summary
    (w : World) (now fired scheduled score : Z) (rest : list Timer) :
  timers w = {| due := scheduled; callback := ShowResultsCallback score |} :: rest ->
  scheduled <= fired ->
  exists w',
    run [ (now, ClickResetChat); (fired, Timeout) ] w = Normal w' /\
    messages (state w') =
      initialMessages now ++
        [ {| msg_id := fired; msg_type := "bot";
             msg_content := resultMessage score (percentage score);
             msg_timestamp := fired; msg_sender := "Sam" |} ] /\
    showQuizResultsFlag (state w') = true /\
    currentQuiz (state w') = None /\
    quizScore (state w') = quizScore (state w) /\
    timers w' = rest.
Proof.
  intros Htimers Hdue. apply Z.leb_le in Hdue.
  cbn [run step mbind Completion_bind]. unfold resetChat. unfold_setters.
  rewrite Htimers. cbn [due callback]. rewrite Hdue. cbn [runCallback mbind Completion_bind].
  eexists. split; [reflexivity|]. unfold showQuizResults. unfold_setters. repeat split.
Qed.

(** ** Sending *)

Lemma handleSendMessage_idle (r : State) (now later : Z) (w : World) :
  isLoading (state w) = false -> toasts w = [] ->
  isLoading (state (handleSendMessage r now later w)) = false /\
  toasts (handleSendMessage r now later w) = [].
Proof.
  intros Hl Ht. unfold handleSendMessage.
  destruct (String.eqb (trim (inputMessage r)) "" || isLoading r); [auto|].
  destruct (generateAIResponse_normal (trim (inputMessage r))) as [response ->].
  unfold_setters. auto.
Qed.

Lemma step_idle (now : Z) (ev : Event) (w w' : World) :
  isLoading (state w) = false -> toasts w = [] ->
  step now ev w = Normal w' ->
  isLoading (state w') = false /\ toasts w' = [].
Proof.
  intros Hl Ht.
  destruct ev as [actionId | index | value | later | | | ]; cbn [step].
  - intros [= <-]. rewrite handleQuickAction_eq. unfold startQuiz.
    destruct (String.eqb actionId "quiz"); unfold_setters; auto.
  - unfold handleQuizAnswer.
    destruct (currentQuiz (state w)) as [quiz|] eqn:Hcur; [|intros [= <-]; auto].
    destruct (nth_js (questions quiz) (currentQuestion quiz)) as [q|]; [|discriminate].
    destruct (currentQuestion quiz <? Z.of_nat (length (questions quiz)) - 1).
    + unfold advanceQuestion.
      destruct (index =? correct q); unfold_setters; rewrite Hcur; cbn [mbind Completion_bind];
        intros [= <-]; unfold_setters; auto.
    + destruct (index =? correct q); unfold_setters; intros [= <-]; unfold_setters; auto.
  - intros [= <-]. unfold_setters. auto.
  - intros [= <-]. apply handleSendMessage_idle; assumption.
  - intros [= <-]. unfold resetChat. unfold_setters. auto.
  - destruct (showQuizResultsFlag (state w)); intros [= <-]; [|auto].
    rewrite handleQuickAction_eq. unfold startQuiz. cbn [String.eqb Ascii.eqb Bool.eqb].
    unfold_setters. auto.
  - destruct (timers w) as [|t rest]; [intros [= <-]; auto|].
    destruct (due t <=? now); [|intros [= <-]; auto].
    destruct (callback t) as [quiz | score]; cbn [runCallback].
    + unfold nextQuestionCallback.
      destruct (nth_js (questions quiz) (currentQuestion quiz + 1)); [|discriminate].
      intros [= <-]. unfold_setters. auto.
    + intros [= <-]. unfold showQuizResults. unfold_setters. auto.
Qed.

Lemma run_idle (trace : list (Z * Event)) (w w' : World) :
  isLoading (state w) = false -> toasts w = [] ->
  run trace w = Normal w' ->
  isLoading (state w') = false /\ toasts w' = [].
Proof.
  revert w. induction trace as [|[now ev] trace IH]; intros w Hl Ht; cbn [run].
  - intros [= <-]. auto.
  - destruct (step now ev w) as [w1|e] eqn:Hstep; cbn [mbind Completion_bind]; [|discriminate].
    destruct (step_idle _ _ _ _ Hl Ht Hstep) as [Hl1 Ht1]. apply IH; assumption.
Qed.

(** X11. In every reachable state [isLoading] is false and no toast was ever
    shown: the loading guard of [handleSendMessage] never blocks a later
    event, and its error branch is dead. *)
Theorem never_loading_never_toast (mounted : Z) (trace : list (Z * Event)) :
  exists w,
    run trace (initialWorld mounted) = Normal w /\
    isLoading (state w) = false /\
    toasts w = [].
Proof.
  destruct (run_wellFormed trace (initialWorld mounted) (initialWorld_wellFormed mounted))
    as (w & Hrun & _).
  exists w. split; [exact Hrun|].
  apply (run_idle trace (initialWorld mounted) w); [reflexivity | reflexivity | exact Hrun].
Qed.

(** X12. The send button and the handler agree. While the button is
    disabled (loading, or nothing but white space typed) a submit changes
    nothing; while it is enabled a submit appends exactly the user message
    with the trimmed text and then the advisor's reply, clears the input and
    leaves timers and toasts alone. *)
Theorem send_button_agrees_with_handler (w : World) (now later : Z) :
  let w' := handleSendMessage (state w) now later w in
  let text := trim (inputMessage (state w)) in
  (sendDisabled (state w) = true -> w' = w) /\
  (sendDisabled (state w) = false ->
   exists reply,
     generateAIResponse text = Normal reply /\
     messages (state w') =
       messages (state w) ++
         [ {| msg_id := now; msg_type := "user"; msg_content := text;
              msg_timestamp := now; msg_sender := "You" |};
           {| msg_id := later; msg_type := "bot"; msg_content := reply;
              msg_timestamp := later; msg_sender := "Sam" |} ] /\
     inputMessage (state w') = "" /\
     isLoading (state w') = false /\
     timers w' = timers w /\
     toasts w' = toasts w).
Proof.
  intros w' text. unfold w', text, sendDisabled, handleSendMessage.
  rewrite (orb_comm (isLoading (state w))).
  destruct (String.eqb (trim (inputMessage (state w))) "" || isLoading (state w)).
  - split; [reflexivity | discriminate].
  - split; [discriminate|]. intros _.
    destruct (generateAIResponse_normal (trim (inputMessage (state w)))) as [reply Hreply].
    exists reply. rewrite Hreply. unfold_setters. rewrite <- app_assoc. repeat split.
Qed.

Lemma handleSendMessage_empty (r : State) (now later : Z) (w : World) :
  trim "" = "" -> inputMessage r = "" -> handleSendMessage r now later w = w.
Proof.
  intros Htrim Hinput. unfold handleSendMessage. rewrite Hinput, Htrim. reflexivity.
Qed.

Lemma handleSendMessage_twice (w : World) (now later now' later' : Z) :
  trim "" = "" ->
  let sent := handleSendMessage (state w) now later w in
  handleSendMessage (state sent) now' later' sent = sent.
Proof.
  intros Htrim sent.
  destruct (String.eqb (trim (inputMessage (state w))) "" || isLoading (state w)) eqn:Hguard.
  - assert (sent = w) as -> by (unfold sent, handleSendMessage; rewrite Hguard; reflexivity).
    unfold handleSendMessage. rewrite Hguard. reflexivity.
  - apply handleSendMessage_empty; [exact Htrim|].
    unfold sent, handleSendMessage. rewrite Hguard.
    destruct (generateAIResponse (trim (inputMessage (state w)))); reflexivity.
Qed.

(** X10. Only Enter without Shift sends. After it, a second call of
    [handleSendMessage] before anything new is typed (the submit handler of
    the form, say) adds nothing, the input having been cleared; this needs
    the trimmed empty string to be empty. *)
Theorem enter_sends_once (w : World) (key : string) (shiftKey : bool)
    (now later now' later' : Z) :
  trim "" = "" ->
  let pressed := handleKeyPress (state w) key shiftKey now later w in
  (key <> "Enter" \/ shiftKey = true -> pressed = w) /\
  (key = "Enter" -> shiftKey = false ->
   pressed = handleSendMessage (state w) now later w /\
   handleSendMessage (state pressed) now' later' pressed = pressed).
Proof.
  intros Htrim pressed. unfold pressed, handleKeyPress. split.
  - intros [Hkey | ->].
    + apply String.eqb_neq in Hkey. rewrite Hkey. reflexivity.
    + rewrite andb_false_r. reflexivity.
  - intros -> ->. cbn [String.eqb Ascii.eqb Bool.eqb negb andb]. split; [reflexivity|].
    apply handleSendMessage_twice, Htrim.
Qed.

(** X18. A message whose lower-cased text contains "investment" also
    contains "invest", so the second test of the investment rule never
    decides; such a message gets the savings, the budgeting or the
    investment reply, never a later one. *)
Theorem investment_reply (message : string) :
  includes (toLowerCase message) "investment" = true ->
  includes (toLowerCase message) "invest" = true /\
  (generateAIResponse message = Normal savingsTemplate \/
   generateAIResponse message = Normal budgetTemplate \/
   generateAIResponse message = Normal investTemplate).
Proof.
  intros Hinvestment.
  assert (includes (toLowerCase message) "invest" = true) as Hinvest.
  { apply includes_spec in Hinvestment as (pre & post & ->).
    apply includes_spec. exists pre, ("ment" +:+ post). reflexivity. }
  split; [exact Hinvest|]. unfold generateAIResponse. rewrite Hinvest.
  destruct (includes (toLowerCase message) "savings" || includes (toLowerCase message) "save");
    [left; reflexivity|].
  destruct (includes (toLowerCase message) "budget" || includes (toLowerCase message) "spending");
    [right; left; reflexivity | right; right; reflexivity].
Qed.

End FurtherChat.

(** ** The analytics runs *)

(** X16. What a completed analysis lets the tabs show depends on the type
    alone: the spending, savings and insight blocks appear for
    "comprehensive" (also the default) and for no other type, though the
    success toast is shown either way; the stored object always carries the
    time stamp, the type and the user id. *)
Theorem sections_follow_analysis_type
    (w : AnalyticsWorld) (analysisType : option string) (isoNow : string) :
  let done := handleAnalysis (Normal tt) analysisType isoNow w in
  let comprehensive := String.eqb (default "comprehensive" analysisType) "comprehensive" in
  sectionsShown (astate done) =
    {| showsSpending := comprehensive;
       showsSavings := comprehensive;
       showsInsights := comprehensive |} /\
  (exists results,
     analysisResults (astate done) = Some results /\
     getField results "timestamp" = Some (JStr isoNow) /\
     getField results "analysis_type" = Some (JStr (default "comprehensive" analysisType)) /\
     getField results "user_id" = Some (JStr "user_123")) /\
  last (atoasts done) = Some (ToastSuccess "AI Analysis completed successfully!").
Proof.
  intros done comprehensive. unfold done, comprehensive, handleAnalysis, sectionsShown.
  cbn [astate analysisResults setIsAnalyzing setAnalysisResults toast atoasts].
  rewrite last_snoc. unfold generateMockResults.
  destruct (String.eqb (default "comprehensive" analysisType) "comprehensive");
    (split; [reflexivity | split; [eexists; repeat split | reflexivity]]).
Qed.

Lemma runAnalysis_fields (w : AnalyticsWorld) (r : AnalysisRun) :
  analysisResults (astate (runAnalysis w r)) =
    match runDelay r with
    | Normal _ =>
        Some (generateMockResults (default "comprehensive" (runType r)) (runIso r))
    | Throw _ => analysisResults (astate w)
    end /\
  length (atoasts (runAnalysis w r)) = S (length (atoasts w)) /\
  isAnalyzing (astate (runAnalysis w r)) = false /\
  activeTab (astate (runAnalysis w r)) = activeTab (astate w).
Proof.
  unfold runAnalysis, handleAnalysis.
  destruct (runDelay r);
    cbn [astate analysisResults setIsAnalyzing setAnalysisResults toast atoasts isAnalyzing activeTab];
    rewrite length_app; cbn [length]; repeat split; lia.
Qed.

(** X17. After any sequence of analysis runs the stored results are those of
    the most recent run whose delay completed (the results before, if none
    did), each run has shown exactly one toast, and the busy flag is down. *)
Theorem results_are_those_of_last_completed_run
    (runs : list AnalysisRun) (w : AnalyticsWorld) :
  let w' := runAnalyses runs w in
  analysisResults (astate w') = lastCompleted runs (analysisResults (astate w)) /\
  length (atoasts w') = (length (atoasts w) + length runs)%nat /\
  (runs <> [] -> isAnalyzing (astate w') = false).
Proof.
  revert w. induction runs as [|r runs IH]; intros w; cbn zeta.
  - cbn. repeat split; [lia | congruence].
  - unfold runAnalyses. cbn [fold_left lastCompleted].
    destruct (runAnalysis_fields w r) as (Hres & Htoasts & Hbusy & _).
    destruct (IH (runAnalysis w r)) as (IHres & IHtoasts & IHbusy). cbn zeta in *.
    unfold runAnalyses in *. rewrite IHres, IHtoasts, Hres, Htoasts.
    split; [reflexivity|]. split; [cbn [length]; lia|]. intros _.
    destruct runs as [|r' runs']; [exact Hbusy | apply IHbusy; discriminate].
Qed.


(** * The statements at concrete inputs *)

(** The concrete runs below are on the ASCII platform. *)
#[local] Existing Instance asciiPlatform.

(** The first question answered correctly: the score goes from 0 to 1 and
    the quiz moves on to the second question. *)
Lemma handleQuizAnswer_score_and_index_witness :
  exists w',
    handleQuizAnswer (state startedWorld) 2000 0 startedWorld = Normal w' /\
    quizScore (state w') = 1 /\
    currentQuestion <$> currentQuiz (state w') = Some 1.
Proof.
  destruct (handleQuizAnswer_score_and_index startedWorld
              {| currentQuestion := 0; questions := quizQuestions; answers := [] |}
              {| q_id := 1;
                 question := "What is the 50/30/20 rule for budgeting?";
                 options := [
                   "50% needs, 30% wants, 20% savings";
                   "50% savings, 30% needs, 20% wants";
                   "50% wants, 30% savings, 20% needs";
                   "50% bills, 30% food, 20% entertainment" ];
                 correct := 0;
                 explanation := "The 50/30/20 rule suggests allocating 50% of income to needs, 30% to wants, and 20% to savings and debt repayment." |}
              2000 0 eq_refl eq_refl) as (w' & Hrun & Hscore & Hquiz).
  exists w'. split; [exact Hrun|]. split; [rewrite Hscore | rewrite Hquiz]; reflexivity.
Defined.

(** C2 as stated fails on the last question: after four answers the quiz is
    on question index 4, and the fifth answer leaves it there. *)
Lemma last_question_index_not_advanced :
  exists w w' quiz quiz',
    run (platform := asciiPlatform) fourAnswered (initialWorld 0) = Normal w /\
    currentQuiz (state w) = Some quiz /\
    handleQuizAnswer (state w) 14000 1 w = Normal w' /\
    currentQuiz (state w') = Some quiz' /\
    currentQuestion quiz = 4 /\
    currentQuestion quiz' <> currentQuestion quiz + 1.
Proof.
  do 4 eexists. split; [vm_compute; reflexivity|].
  split; [reflexivity|]. split; [vm_compute; reflexivity|].
  split; [reflexivity|]. split; [reflexivity | discriminate].
Qed.

(** With no quiz in the first render, an option index submitted to
    [handleQuizAnswer] returns the first world as it was. *)
Lemma handleQuizAnswer_without_quiz_witness :
  handleQuizAnswer (initialState 0) 1000 1 (initialWorld 0) = Normal (initialWorld 0).
Proof.
  apply (handleQuizAnswer_without_quiz (initialState 0) (initialWorld 0) 1000 1).
  reflexivity.
Defined.

(** Scores of 4, 3 and 2 out of 5 are 80, 60 and 40 per cent: expert,
    intermediate and beginner. *)
Lemma resultMessage_tiers_witness :
  resultMessage (platform := asciiPlatform) 4 (percentage 4) = expertMessage 4 (percentage 4) /\
  resultMessage (platform := asciiPlatform) 3 (percentage 3) = intermediateMessage 3 (percentage 3) /\
  resultMessage (platform := asciiPlatform) 2 (percentage 2) = beginnerMessage 2 (percentage 2).
Proof.
  split; [|split].
  - apply (proj1 (resultMessage_tiers (platform := asciiPlatform) 4 (percentage 4)));
      vm_compute; reflexivity.
  - apply (proj1 (proj2 (resultMessage_tiers (platform := asciiPlatform) 3 (percentage 3))));
      vm_compute; reflexivity.
  - apply (proj1 (proj2 (proj2
             (resultMessage_tiers (platform := asciiPlatform) 2 (percentage 2)))));
      vm_compute; reflexivity.
Defined.

(** C9 (the code at a send within one millisecond). The user message and
    the reply of one send both take their id from [Date.now()]; when the
    reply is added in the millisecond in which the user message was built,
    the later message does not have the greater id: the two ids are equal,
    and equal ids are equal React keys in the rendered list. *)
Theorem same_millisecond_ids_collide :
  exists w earlier later,
    clockMonotone 1700000000000 sendInOneMillisecond /\
    run (platform := asciiPlatform) sendInOneMillisecond (initialWorld 1700000000000)
      = Normal w /\
    messages (state w) !! 2%nat = Some earlier /\
    messages (state w) !! 3%nat = Some later /\
    msg_type earlier = "user" /\
    msg_type later = "bot" /\
    msg_id earlier = msg_id later /\
    ~ msg_id earlier < msg_id later.
Proof.
  do 3 eexists. split; [cbn; lia|].
  split; [vm_compute; reflexivity|].
  split; [reflexivity|]. split; [reflexivity|].
  split; [reflexivity|]. split; [reflexivity|].
  split; [reflexivity | cbn; lia].
Qed.

(** The ids of the log after the one-millisecond send are in
    non-decreasing order. *)
Lemma message_ids_nondecreasing_witness :
  exists w,
    run (platform := asciiPlatform) sendInOneMillisecond (initialWorld 1700000000000)
      = Normal w /\
    forall (i j : nat) (earlier later : Message),
      (i < j)%nat ->
      messages (state w) !! i = Some earlier ->
      messages (state w) !! j = Some later ->
      msg_id earlier <= msg_id later.
Proof.
  apply (message_ids_nondecreasing (platform := asciiPlatform)
           1700000000000 sendInOneMillisecond).
  - lia.
  - cbn. lia.
Defined.

(** The same question sent from the first render and from a render in the
    middle of a quiz gets the same reply, the savings template. *)
Lemma generateAIResponse_total_history_independent_witness :
  exists response,
    generateAIResponse "How do I save money?" = Normal response /\
    lastContent (handleSendMessage
                   (state (setInputMessage "How do I save money?" (initialWorld 0)))
                   5000 5001 (initialWorld 0)) = Some response /\
    lastContent (handleSendMessage
                   (state (setInputMessage "  How do I save money? " startedWorld))
                   9000 9000 startedWorld) = Some response /\
    toasts (handleSendMessage
              (state (setInputMessage "How do I save money?" (initialWorld 0)))
              5000 5001 (initialWorld 0)) = toasts (initialWorld 0) /\
    toasts (handleSendMessage
              (state (setInputMessage "  How do I save money? " startedWorld))
              9000 9000 startedWorld) = toasts startedWorld.
Proof.
  apply (generateAIResponse_total_history_independent (platform := asciiPlatform)
           "How do I save money?").
  - reflexivity.
  - reflexivity.
  - discriminate.
  - reflexivity.
  - reflexivity.
Defined.

(** The ordinary session with every answer correct. *)
Lemma five_rounds_complete_witness :
  let before := point 0 0 + point 1 1 + point 2 1 + point 3 1 in
  exists w',
    run ((1000, ClickQuickAction "quiz")
           :: answerRound 2000 0 4000 ++ answerRound 5000 1 7000 ++ answerRound 8000 1 10000
           ++ answerRound 11000 1 13000 ++ answerRound 14000 1 16000) (initialWorld 0)
      = Normal w' /\
    currentQuiz (state w') = None /\
    showQuizResultsFlag (state w') = true /\
    quizScore (state w') = before + point 4 1 /\
    0 <= quizScore (state w') <= 5 /\
    lastContent w' = Some (resultMessage before (percentage before)).
Proof.
  apply (five_rounds_complete (platform := asciiPlatform) (initialWorld 0) 1000
           2000 0 4000 5000 1 7000 8000 1 10000 11000 1 13000 14000 1 16000);
    [reflexivity | lia | lia | lia | lia | lia].
Defined.

(** The log after a question was typed and sent extends the first log. *)
Lemma log_append_only_witness :
  exists added,
    messages (state (worldAfter sendInOneMillisecond)) =
      messages (state (initialWorld 0)) ++ added.
Proof.
  apply (log_append_only (platform := asciiPlatform) sendInOneMillisecond).
  - repeat constructor; discriminate.
  - vm_compute. reflexivity.
Defined.

(** A reset one second after the fifth answer, then the summary timer. *)
Lemma reset_keeps_pending_summary_witness :
  exists w',
    run [ (15000, ClickResetChat); (16000, Timeout) ] (worldAfter fiveAnswered) = Normal w' /\
    messages (state w') =
      initialMessages 15000 ++
        [ {| msg_id := 16000; msg_type := "bot";
             msg_content := resultMessage 4 (percentage 4);
             msg_timestamp := 16000; msg_sender := "Sam" |} ] /\
    showQuizResultsFlag (state w') = true /\
    currentQuiz (state w') = None /\
    quizScore (state w') = quizScore (state (worldAfter fiveAnswered)) /\
    timers w' = [].
Proof.
  apply (reset_keeps_pending_summary (platform := asciiPlatform)
           (worldAfter fiveAnswered) 15000 16000 16000 4 []).
  - vm_compute. reflexivity.
  - lia.
Defined.


(** "Get Financial Advice" clicked right after the quiz was started. *)
Lemma other_quick_action_abandons_quiz_witness :
  let w' := handleQuickAction 3000 "advice" startedWorld in
  currentQuiz (state w') = None /\
  renderQuizPanel (state w') = Normal None /\
  quizScore (state w') = quizScore (state startedWorld) /\
  timers w' = timers startedWorld /\
  lastContent w' = Some (quickActionMessage "advice") /\
  forall later index, handleQuizAnswer (state w') later index w' = Normal w'.
Proof.
  apply (other_quick_action_abandons_quiz (platform := asciiPlatform) startedWorld 3000 "advice").
  discriminate.
Defined.

(** Index 7 submitted on the last question. *)
Lemma out_of_range_option_never_scores_witness :
  exists w w',
    run fourAnswered (initialWorld 0) = Normal w /\
    step 14000 (ClickQuizOption 7) w = Normal w' /\
    quizScore (state w') = quizScore (state w) /\
    forall quiz q,
      currentQuiz (state w) = Some quiz ->
      nth_js quizQuestions (currentQuestion quiz) = Some q ->
      lastContent w' =
        Some (lines [ "Your answer: undefined"; ""; "❌ Incorrect!"; ""; explanation q ]).
Proof.
  apply (out_of_range_option_never_scores (platform := asciiPlatform) 0 fourAnswered 14000 7).
  right. lia.
Defined.

(** Enter pressed on a typed question. *)
Lemma enter_sends_once_witness :
  let w := setInputMessage "How do I save money?" (initialWorld 0) in
  let pressed := handleKeyPress (state w) "Enter" false 5000 5001 w in
  ("Enter" <> "Enter" \/ false = true -> pressed = w) /\
  ("Enter" = "Enter" -> false = false ->
   pressed = handleSendMessage (state w) 5000 5001 w /\
   handleSendMessage (state pressed) 5002 5003 pressed = pressed).
Proof.
  apply (enter_sends_once (platform := asciiPlatform)
           (setInputMessage "How do I save money?" (initialWorld 0))
           "Enter" false 5000 5001 5002 5003).
  reflexivity.
Defined.

(** The send button with a question typed in the first render: enabled,
    and the submit appends the question and the savings reply. *)
Lemma send_button_agrees_with_handler_witness :
  let w := setInputMessage "How do I save money?" (initialWorld 0) in
  let w' := handleSendMessage (state w) 5000 5001 w in
  exists reply,
    generateAIResponse (trim (inputMessage (state w))) = Normal reply /\
    messages (state w') =
      messages (state w) ++
        [ {| msg_id := 5000; msg_type := "user";
             msg_content := trim (inputMessage (state w));
             msg_timestamp := 5000; msg_sender := "You" |};
          {| msg_id := 5001; msg_type := "bot"; msg_content := reply;
             msg_timestamp := 5001; msg_sender := "Sam" |} ] /\
    inputMessage (state w') = "" /\
    isLoading (state w') = false /\
    timers w' = timers w /\
    toasts w' = toasts w.
Proof.
  apply (proj2 (send_button_agrees_with_handler (platform := asciiPlatform)
                  (setInputMessage "How do I save money?" (initialWorld 0)) 5000 5001)).
  reflexivity.
Defined.

(** The first answer and its callback: question 2 is announced and shown. *)
Lemma announcement_matches_panel_witness :
  exists w' p,
    run (answerRound 2000 0 4000) startedWorld = Normal w' /\
    renderQuizPanel (state w') = Normal (Some p) /\
    panelHeading p = "Question " +:+ showZ (0 + 2) +:+ " of 5" /\
    lastContent w' = Some ("Question " +:+ showZ (0 + 2) +:+ ": " +:+ panelQuestion p).
Proof.
  apply (announcement_matches_panel (platform := asciiPlatform) startedWorld 0 0 2000 0 4000).
  - lia.
  - lia.
  - repeat split.
Defined.

(** After the all-correct session: a late click, a tick, typing and a send. *)
Lemma completed_persists_witness :
  exists w',
    run [ (17000, ClickQuizOption 1); (18000, Timeout);
          (19000, ChangeInput "thanks"); (20000, SubmitForm 20000) ]
        (worldAfter allCorrectSession) = Normal w' /\
    completed w' /\
    quizScore (state w') = quizScore (state (worldAfter allCorrectSession)).
Proof.
  apply (completed_persists (platform := asciiPlatform)).
  - vm_compute. repeat split.
  - repeat constructor.
Defined.

(** A question about an investment plan, in capitals. *)
Lemma investment_reply_witness :
  includes (toLowerCase "Is an INVESTMENT plan right for me?") "invest" = true /\
  (generateAIResponse "Is an INVESTMENT plan right for me?" = Normal savingsTemplate \/
   generateAIResponse "Is an INVESTMENT plan right for me?" = Normal budgetTemplate \/
   generateAIResponse "Is an INVESTMENT plan right for me?" = Normal investTemplate).
Proof.
  apply (investment_reply (platform := asciiPlatform)). vm_compute. reflexivity.
Defined.
